(** * Retrieval tools and ingestion script of the knowledge-base demo

    A shallow embedding of
    - [src/mastra/tools/vector-store-tools.ts] (the five agent tools),
    - [src/mastra/scripts/populate-knowledge-base.ts] (the ingestion run),
    - the memory options of [src/mastra/agents/knowledge-memory-agent.ts].

    The tools are asynchronous programs that talk to two SDKs (the embedding
    provider and the vector store).  They are embedded as finite trees of
    requests ([Prog]); an interpretation ([run]) plays such a tree against
    an arbitrary implementation of the services and records every request
    that was issued.

    The agent file only configures the conversational memory; the recall
    window it asks for is computed by the memory library.  That algorithm
    is modelled from the specification and marked as such. *)

From Stdlib Require Import Floats.PrimFloat ZArith Ascii.
From stdpp Require Import base option list strings gmap sorting pretty.

Set Warnings "-register-all".

(** ** JavaScript data *)

(** A JavaScript [number] is an IEEE 754 binary64 value. *)
Abbreviation number := float (only parsing).

(** The values a metadata payload can hold.  [undefined] is the absence of
    a value and is rendered with [option]. *)
Inductive JsVal : Type :=
| JNull
| JBool (b : bool)
| JNum (x : number)
| JStr (s : string)
| JArr (xs : list JsVal)
| JObj (fields : list (string * JsVal)).

(** [Record<string, any>] *)
Abbreviation Metadata := (gmap string JsVal) (only parsing).

Definition str_truthy (s : string) : bool :=
  match s with
  | EmptyString => false
  | String _ _ => true
  end.

(** ToBoolean *)
Definition truthy (v : JsVal) : bool :=
  match v with
  | JNull => false
  | JBool b => b
  | JNum x => negb (PrimFloat.eqb x 0 || PrimFloat.is_nan x)
  | JStr s => str_truthy s
  | JArr _ => true
  | JObj _ => true
  end.

(** [v || d] for a possibly undefined [v]. *)
Definition js_or (v : option JsVal) (d : JsVal) : JsVal :=
  match v with
  | Some x => if truthy x then x else d
  | None => d
  end.

(** [s || d] for a possibly undefined string [s]. *)
Definition str_or (s : option string) (d : string) : string :=
  match s with
  | Some x => if str_truthy x then x else d
  | None => d
  end.

(** [!s] for a possibly undefined string [s]. *)
Definition str_not (s : option string) : bool :=
  match s with
  | Some x => negb (str_truthy x)
  | None => true
  end.

(** [String.prototype.substring(0, n)]: the first [n] code units, or the
    whole string when it is shorter. *)
Definition substring0 (n : nat) (s : string) : string := String.substring 0 n s.

(** [s.includes(sub)], by trying every position of [s] from the left. *)
Fixpoint includes (s sub : string) : bool :=
  String.prefix sub s ||
  match s with
  | EmptyString => false
  | String _ s' => includes s' sub
  end.

(** An error object, as the SDKs and the runtime raise them.  [message] is
    a string, or missing on objects that are not [Error]s; error objects
    whose [message] holds something else than a string are not modelled. *)
Record JsError := mkError { message : option string }.

(** What a [catch (error: any)] clause can receive: a promise may be
    rejected with, and a [throw] may deliver, [null] or [undefined] as well
    as an object. *)
Inductive Exn : Type :=
| ExnNull
| ExnUndefined
| ExnError (error : JsError).

(** The [TypeError] the runtime raises when [.message] is read from [null]
    or [undefined] (the wording is the engine's). *)
Definition cannot_read_message (what : string) : JsError :=
  mkError
    (Some ("Cannot read properties of " +:+ what +:+ " (reading 'message')")).

(** [process.env] *)
Abbreviation Env := (gmap string string) (only parsing).

(** One hit of [vectorStore.query]. *)
Module QueryResult.
Record t := mk {
  id : string;
  score : option number;
  metadata : option Metadata;
  document : option string;
}.
End QueryResult.

(** The answer of [vectorStore.describeIndex]. *)
Module IndexStats.
Record t := mk {
  count : number;
  dimension : number;
  metric : option string;
}.
End IndexStats.

(** ** Requests to the outside world *)

(** The awaited SDK calls. *)
Inductive Svc : Type :=
| Embed (model : string) (value : string)
| VQuery (indexName : string) (queryVector : list number) (topK : number)
| VUpsert (indexName : string) (vectors : list (list number))
    (metadata : list Metadata)
| VListIndexes
| VDescribeIndex (indexName : string)
| VCreateIndex (indexName : string) (dimension : number) (metric : string).

(** The value a call resolves to. *)
Definition Resp (c : Svc) : Type :=
  match c with
  | Embed _ _ => list number
  | VQuery _ _ _ => list QueryResult.t
  | VUpsert _ _ _ => list string
  | VListIndexes => list string
  | VDescribeIndex _ => IndexStats.t
  | VCreateIndex _ _ _ => unit
  end.

(** A call either rejects with an error or resolves. *)
Abbreviation Answer c := (Exn + Resp c)%type (only parsing).

(** Console output of the ingestion script, one constructor per step
    (consecutive [console.log] lines of one step are one entry; colours and
    wording are left out). *)
Inductive LogLine : Type :=
| LogBanner
| LogMissingSearchConfig
| LogMissingOpenAIKey
| LogCreatingIndex (indexName : string)
| LogIndexCreated
| LogIndexExists
| LogGenerating (n : nat)
| LogProcessing (i n : nat)
| LogEmbeddingsGenerated
| LogInserting
| LogInserted
| LogWaiting
| LogStats (indexName : string) (stats : IndexStats.t)
| LogCategoriesHeader
| LogCategory (category : string) (count : nat)
| LogDone
| LogNextStep
| LogError (message : option string)
| LogErrorObject (error : Exn).

(** ** Programs *)

Inductive Prog (A : Type) : Type :=
| Ret (a : A)
| Throw (e : Exn)
| Exit (code : Z)
| Call (c : Svc) (k : Answer c → Prog A)
| Now (k : string → Prog A)
| Sleep (ms : nat) (k : Prog A)
| Log (l : LogLine) (k : Prog A).

Arguments Ret {A} a.
Arguments Throw {A} e.
Arguments Exit {A} code.
Arguments Call {A} c k.
Arguments Now {A} k.
Arguments Sleep {A} ms k.
Arguments Log {A} l k.

Fixpoint bind {A B} (p : Prog A) (f : A → Prog B) : Prog B :=
  match p with
  | Ret a => f a
  | Throw e => Throw e
  | Exit code => Exit code
  | Call c k => Call c (λ r, bind (k r) f)
  | Now k => Now (λ s, bind (k s) f)
  | Sleep ms k => Sleep ms (bind k f)
  | Log l k => Log l (bind k f)
  end.

#[global] Instance prog_ret : MRet Prog := @Ret.
#[global] Instance prog_bind : MBind Prog := λ A B f p, bind p f.

(** [try { p } catch (error) { h error }].  [process.exit] is not an
    exception and is not intercepted. *)
Fixpoint try_catch {A} (p : Prog A) (h : Exn → Prog A) : Prog A :=
  match p with
  | Ret a => Ret a
  | Throw e => h e
  | Exit code => Exit code
  | Call c k => Call c (λ r, try_catch (k r) h)
  | Now k => Now (λ s, try_catch (k s) h)
  | Sleep ms k => Sleep ms (try_catch k h)
  | Log l k => Log l (try_catch k h)
  end.

(** [await call]: a rejection is rethrown at the call site. *)
Definition await (c : Svc) : Prog (Resp c) :=
  Call c (λ r, match r with inl e => Throw e | inr v => Ret v end).

(** [new Date().toISOString()] *)
Definition now : Prog string := Now Ret.
Definition sleep (ms : nat) : Prog unit := Sleep ms (Ret ()).
Definition log (l : LogLine) : Prog unit := Log l (Ret ()).

(** ** Running a program against the services *)

(** An implementation of the outside world over a state [W]: how each SDK
    call is answered and what the clock shows. *)
Record Services (W : Type) := mkServices {
  serve : W → ∀ c : Svc, Answer c * W;
  clock : W → string * W;
}.
Arguments serve {W} _ _ _.
Arguments clock {W} _ _.

Inductive Event : Type :=
| EvCall (c : Svc) (r : Answer c)
| EvNow (s : string)
| EvSleep (ms : nat)
| EvLog (l : LogLine).

Inductive Outcome (A : Type) : Type :=
| Returned (a : A)
| Thrown (e : Exn)
| Exited (code : Z).
Arguments Returned {A} a.
Arguments Thrown {A} e.
Arguments Exited {A} code.

Module Run.
Record t (W A : Type) := mk {
  outcome : Outcome A;
  final : W;
  trace : list Event;
}.
Arguments mk {W A} _ _ _.
Arguments outcome {W A} _.
Arguments final {W A} _.
Arguments trace {W A} _.
End Run.

Definition emit {W A} (ev : Event) (r : Run.t W A) : Run.t W A :=
  Run.mk (Run.outcome r) (Run.final r) (ev :: Run.trace r).

Fixpoint run {W A} (S : Services W) (p : Prog A) (w : W) : Run.t W A :=
  match p with
  | Ret a => Run.mk (Returned a) w []
  | Throw e => Run.mk (Thrown e) w []
  | Exit code => Run.mk (Exited code) w []
  | Call c k =>
      let '(r, w') := serve S w c in emit (EvCall c r) (run S (k r) w')
  | Now k =>
      let '(s, w') := clock S w in emit (EvNow s) (run S (k s) w')
  | Sleep ms k => emit (EvSleep ms) (run S k w)
  | Log l k => emit (EvLog l) (run S k w)
  end.

(** The SDK calls of a trace, in the order they were issued. *)
Definition calls (t : list Event) : list Svc :=
  omap (λ ev, match ev with EvCall c _ => Some c | _ => None end) t.

(** ** Tool results *)

(** [{ success: true, ...payload }] or [{ success: false, error }]. *)
Inductive ToolResult (P : Type) : Type :=
| Ok (payload : P)
| Fail (error : string).
Arguments Ok {P} payload.
Arguments Fail {P} error.

Definition success {P} (r : ToolResult P) : bool :=
  match r with Ok _ => true | Fail _ => false end.

Definition error_of {P} (r : ToolResult P) : option string :=
  match r with Ok _ => None | Fail e => Some e end.

Definition payload_of {P} (r : ToolResult P) : option P :=
  match r with Ok p => Some p | Fail _ => None end.

(** ** Tool inputs and outputs *)

(** Input of the two search tools as the caller gives it; [indexName] and
    [topK] may be omitted. *)
Module SearchInput.
Record t := mk {
  query : string;
  indexName : option string;
  topK : option number;
}.
End SearchInput.

(** The [context] of the two search tools, after the schema's defaults. *)
Module SearchContext.
Record t := mk {
  query : string;
  indexName : string;
  topK : number;
}.
End SearchContext.

(** [z.object({ query: z.string(), indexName: z.string().default(..),
    topK: z.number().default(5) })]: the defaults the schema fills in.  The
    schema puts no bound on the text or on the number; that the values have
    these types is checked by the framework before [execute] is entered
    (see [accepted_by_schema]). *)
Definition searchSchema (i : SearchInput.t) : SearchContext.t :=
  SearchContext.mk
    (SearchInput.query i)
    (default "knowledge-base" (SearchInput.indexName i))
    (default 5%float (SearchInput.topK i)).

(** An input [z.number()] lets through: [NaN] is not a number to it. *)
Definition accepted_by_schema (i : SearchInput.t) : Prop :=
  ∀ x, SearchInput.topK i = Some x → PrimFloat.is_nan x = false.

(** The [context] of [addDocumentTool]. *)
Module AddContext.
Record t := mk {
  title : string;
  content : string;
  category : string;
  indexName : string;
  tags : option (list string);
}.
End AddContext.

(** One entry of [formattedResults] in [searchDocumentsTool]. *)
Module Formatted.
Record t := mk {
  position : nat;
  score : option string;
  title : JsVal;
  content : string;
  category : JsVal;
  metadata : option Metadata;
}.
End Formatted.

(** One entry of [results] in [searchWithFiltersTool]. *)
Module Snippet.
Record t := mk {
  position : nat;
  score : option string;
  title : option JsVal;
  content : string;
  category : option JsVal;
}.
End Snippet.

Module SearchPayload.
Record t (R : Type) := mk {
  query : string;
  resultsCount : nat;
  results : list R;
}.
Arguments mk {R} _ _ _.
Arguments query {R} _.
Arguments resultsCount {R} _.
Arguments results {R} _.
End SearchPayload.

Module AddPayload.
Record t := mk {
  message : string;
  documentId : option string;
  title : string;
  category : string;
}.
End AddPayload.

Module ListPayload.
Record t := mk {
  count : nat;
  indexes : list string;
}.
End ListPayload.

Module StatsPayload.
Record t := mk {
  indexName : string;
  documentCount : number;
  dimension : number;
  metric : option string;
}.
End StatsPayload.

(** ** The tools *)

Definition newline : string := String "010"%char "".

Definition embedding_model : string := "text-embedding-3-small".

(** Reading [error.message] in a handler: on [null] and [undefined] the
    read itself throws. *)
Definition read_message (error : Exn) : Prog (option string) :=
  match error with
  | ExnNull => Throw (ExnError (cannot_read_message "null"))
  | ExnUndefined => Throw (ExnError (cannot_read_message "undefined"))
  | ExnError e => Ret (message e)
  end.

(** [catch (error) { return { success: false, error: error.message || d } }] *)
Definition failure {P} (d : string) (error : Exn) : Prog (ToolResult P) :=
  m ← read_message error;
  Ret (Fail (str_or m d)).

(** [r.metadata?.key] *)
Definition metadata_field (r : QueryResult.t) (key : string) : option JsVal :=
  QueryResult.metadata r ≫= (.!! key).

(** The metadata object written by [addDocumentTool] and by the ingestion
    script. *)
Definition document_metadata (title content category : string)
    (tags : list string) (timestamp : string) : Metadata :=
  list_to_map [
    ("title", JStr title);
    ("content", JStr content);
    ("category", JStr category);
    ("tags", JArr (JStr <$> tags));
    ("timestamp", JStr timestamp)
  ].

Section Tools.

(** [Number.prototype.toFixed], a built-in of the runtime. *)
Context (toFixed : number → nat → string).

(** [r.score?.toFixed(4)] *)
Definition score_text (r : QueryResult.t) : option string :=
  (λ x, toFixed x 4) <$> QueryResult.score r.

(** The callback of [results.map] in [searchDocumentsTool]. *)
Definition formatResult (i : nat) (r : QueryResult.t) : Formatted.t :=
  {| Formatted.position := i + 1;
     Formatted.score := score_text r;
     Formatted.title := js_or (metadata_field r "title") (JStr "Untitled");
     Formatted.content := str_or (QueryResult.document r) "No content";
     Formatted.category :=
       js_or (metadata_field r "category") (JStr "No category");
     Formatted.metadata := QueryResult.metadata r |}.

(** The callback of [results.map] in [searchWithFiltersTool]. *)
Definition formatSnippet (i : nat) (r : QueryResult.t) : Snippet.t :=
  {| Snippet.position := i + 1;
     Snippet.score := score_text r;
     Snippet.title := metadata_field r "title";
     Snippet.content :=
       substring0 200 (str_or (QueryResult.document r) "") +:+ "...";
     Snippet.category := metadata_field r "category" |}.

Definition searchDocumentsTool (env : Env) (context : SearchContext.t)
    : Prog (ToolResult (SearchPayload.t Formatted.t)) :=
  try_catch
    (let query := SearchContext.query context in
     let indexName := SearchContext.indexName context in
     let topK := SearchContext.topK context in
     if str_not (env !! "OPENAI_API_KEY") then
       Ret (Fail "OpenAI API key is not configured")
     else
       embedding ← await (Embed embedding_model query);
       results ← await (VQuery indexName embedding topK);
       let formattedResults := imap formatResult results in
       Ret (Ok {| SearchPayload.query := query;
                  SearchPayload.resultsCount := length results;
                  SearchPayload.results := formattedResults |}))
    (failure "Error while searching documents").

Definition addDocumentTool (env : Env) (context : AddContext.t)
    : Prog (ToolResult AddPayload.t) :=
  try_catch
    (let title := AddContext.title context in
     let content := AddContext.content context in
     let category := AddContext.category context in
     let indexName := AddContext.indexName context in
     let tags := AddContext.tags context in
     if str_not (env !! "OPENAI_API_KEY") then
       Ret (Fail "OpenAI API key is not configured")
     else
       embedding ← await (Embed embedding_model (title +:+ newline +:+ content));
       timestamp ← now;
       ids ← await (VUpsert indexName [embedding]
                      [document_metadata title content category
                         (default [] tags) timestamp]);
       let documentId := head ids in
       Ret (Ok {| AddPayload.message := "Document added successfully";
                  AddPayload.documentId := documentId;
                  AddPayload.title := title;
                  AddPayload.category := category |}))
    (failure "Error while adding document").

Definition listIndexesTool : Prog (ToolResult ListPayload.t) :=
  try_catch
    (indexes ← await VListIndexes;
     Ret (Ok {| ListPayload.count := length indexes;
                ListPayload.indexes := indexes |}))
    (failure "Error while listing indexes").

Definition getIndexStatsTool (indexName : string)
    : Prog (ToolResult StatsPayload.t) :=
  try_catch
    (stats ← await (VDescribeIndex indexName);
     Ret (Ok {| StatsPayload.indexName := indexName;
                StatsPayload.documentCount := IndexStats.count stats;
                StatsPayload.dimension := IndexStats.dimension stats;
                StatsPayload.metric := IndexStats.metric stats |}))
    (failure "Error while getting index statistics").

Definition searchWithFiltersTool (env : Env) (context : SearchContext.t)
    : Prog (ToolResult (SearchPayload.t Snippet.t)) :=
  try_catch
    (let query := SearchContext.query context in
     let indexName := SearchContext.indexName context in
     let topK := SearchContext.topK context in
     if str_not (env !! "OPENAI_API_KEY") then
       Ret (Fail "OpenAI API key is not configured")
     else
       embedding ← await (Embed embedding_model query);
       results ← await (VQuery indexName embedding topK);
       Ret (Ok {| SearchPayload.query := query;
                  SearchPayload.resultsCount := length results;
                  SearchPayload.results := imap formatSnippet results |}))
    (failure "Error while searching").

End Tools.

(** The schema is applied before [execute] sees the input. *)
Definition searchDocuments (toFixed : number → nat → string) (env : Env)
    (input : SearchInput.t) :=
  searchDocumentsTool toFixed env (searchSchema input).

Definition searchWithFilters (toFixed : number → nat → string) (env : Env)
    (input : SearchInput.t) :=
  searchWithFiltersTool toFixed env (searchSchema input).

(** ** The ingestion script *)

Module Doc.
Record t := mk {
  title : string;
  content : string;
  category : string;
  tags : list string;
}.
End Doc.

Definition sampleDocuments : list Doc.t := [
  {| Doc.title := "Introduction to Artificial Intelligence";
     Doc.content := "Artificial Intelligence (AI) is a branch of computer science that aims to create systems capable of performing tasks that normally require human intelligence. This includes learning, reasoning, perception, natural language processing, and decision-making. Modern AI systems use machine learning and deep learning techniques to improve their performance over time.";
     Doc.category := "technology";
     Doc.tags := ["AI"; "machine learning"; "technology"] |};
  {| Doc.title := "Vector Databases";
     Doc.content := "Vector databases are specialized systems for storing and searching vector embeddings. Unlike traditional databases that use text or numeric indexes, vector databases enable searches by semantic similarity. This is fundamental for AI applications such as recommendation systems, semantic search, and retrieval-augmented generation (RAG).";
     Doc.category := "technology";
     Doc.tags := ["databases"; "vectors"; "embeddings"] |};
  {| Doc.title := "Azure AI Search: Cognitive Search";
     Doc.content := "Azure AI Search is a cloud search service that provides semantic, vector, and full-text search capabilities. It allows you to index large volumes of data and perform searches using natural language processing. It is ideal for implementing RAG (Retrieval Augmented Generation) systems and applications that require intelligent search.";
     Doc.category := "technology";
     Doc.tags := ["Azure"; "search"; "cloud"] |};
  {| Doc.title := "Embeddings and Semantic Representation";
     Doc.content := "Embeddings are vector representations of text, images, or other data that capture their semantic meaning. Models like OpenAI's text-embedding-3-small convert text into 1536-dimensional vectors, where texts with similar meanings have vectors close together in vector space. This allows comparing the meaning of texts using cosine or Euclidean distance.";
     Doc.category := "technology";
     Doc.tags := ["embeddings"; "NLP"; "OpenAI"] |};
  {| Doc.title := "RAG Architectures (Retrieval Augmented Generation)";
     Doc.content := "RAG is an architecture that combines information retrieval with language generation. First, relevant documents are retrieved from a knowledge base using vector search, then these documents are used as context for an LLM to generate accurate and grounded responses. This reduces hallucinations and allows models to access up-to-date information.";
     Doc.category := "technology";
     Doc.tags := ["RAG"; "LLM"; "architecture"] |};
  {| Doc.title := "Climate Change and Its Effects";
     Doc.content := "Climate change is a significant alteration of global climate patterns, mainly caused by the increase of greenhouse gases in the atmosphere. Effects include rising global temperatures, melting glaciers, more frequent extreme weather events, and changes in ecosystems. Reducing carbon emissions is crucial to mitigate these effects.";
     Doc.category := "science";
     Doc.tags := ["climate"; "environment"; "sustainability"] |};
  {| Doc.title := "Quantum Computing: The Future of Technology";
     Doc.content := "Quantum computing uses principles of quantum mechanics such as superposition and entanglement to perform calculations. Unlike classical computers that use bits (0 or 1), quantum computers use qubits that can be in multiple states simultaneously. This promises to solve problems that are intractable for classical computers, such as large number factorization and molecular simulation.";
     Doc.category := "science";
     Doc.tags := ["quantum computing"; "physics"; "innovation"] |};
  {| Doc.title := "Agile Methodologies in Software Development";
     Doc.content := "Agile methodologies like Scrum and Kanban revolutionized software development by focusing on short iterations, continuous collaboration, and adaptability. Instead of planning the entire project in advance, work is done in short sprints that allow priorities to be adjusted based on feedback. This results in higher quality software better aligned with user needs.";
     Doc.category := "business";
     Doc.tags := ["agile"; "scrum"; "software development"] |};
  {| Doc.title := "Digital Marketing and SEO";
     Doc.content := "Digital marketing encompasses all promotion strategies in digital media. SEO (Search Engine Optimization) is essential to improve visibility in search engines through quality content, relevant keywords, and technical optimization. Content must be valuable to users while following SEO best practices to achieve high rankings.";
     Doc.category := "business";
     Doc.tags := ["marketing"; "SEO"; "digital"] |};
  {| Doc.title := "Nutrition and Holistic Health";
     Doc.content := "A balanced diet is essential for maintaining health. It should include a variety of fruits, vegetables, lean proteins, whole grains, and healthy fats. Proper hydration, regular exercise, and quality sleep complement a healthy diet. Avoiding processed foods and added sugars significantly contributes to long-term well-being.";
     Doc.category := "health";
     Doc.tags := ["nutrition"; "well-being"; "diet"] |};
  {| Doc.title := "Supervised vs Unsupervised Machine Learning";
     Doc.content := "In supervised learning, the model is trained with labeled data, learning to map inputs to known outputs. It is useful for classification and regression. Unsupervised learning works with unlabeled data, finding hidden patterns through clustering or dimensionality reduction. Each approach has its specific use cases depending on the problem to solve.";
     Doc.category := "technology";
     Doc.tags := ["machine learning"; "AI"; "algorithms"] |};
  {| Doc.title := "TypeScript: JavaScript with Types";
     Doc.content := "TypeScript is a superset of JavaScript that adds static typing. It helps catch errors at compile time instead of runtime, improves developer experience with intelligent autocompletion, and makes it easier to maintain large-scale code. It is especially valuable in large projects with multiple developers.";
     Doc.category := "technology";
     Doc.tags := ["TypeScript"; "JavaScript"; "programming"] |}
].

(** [error?.message?.includes('already exists')] *)
Definition already_exists (error : Exn) : bool :=
  match error with
  | ExnError e =>
      match message e with
      | Some m => includes m "already exists"
      | None => false
      end
  | ExnNull | ExnUndefined => false
  end.

(** Step 1: create the index; an index that is already there is fine. *)
Definition create_index (indexName : string) : Prog unit :=
  try_catch
    (await (VCreateIndex indexName 1536 "cosine");;
     log LogIndexCreated)
    (λ error,
       if already_exists error then log LogIndexExists else Throw error).

(** The [for] loop of step 2, entered at index [i] with the embeddings
    pushed so far. *)
Fixpoint embed_documents (n i : nat) (docs : list Doc.t)
    (embeddings : list (list number)) : Prog (list (list number)) :=
  match docs with
  | [] => Ret embeddings
  | doc :: rest =>
      log (LogProcessing (i + 1) n);;
      embedding ← await (Embed embedding_model
                           (Doc.title doc +:+ newline +:+ Doc.content doc));
      sleep 200;;
      embed_documents n (S i) rest (embeddings ++ [embedding])
  end.

(** [sampleDocuments.map((doc) => ({ ..., timestamp: new Date()... }))] *)
Fixpoint stamp_documents (docs : list Doc.t) : Prog (list Metadata) :=
  match docs with
  | [] => Ret []
  | doc :: rest =>
      timestamp ← now;
      metadata ← stamp_documents rest;
      Ret (document_metadata (Doc.title doc) (Doc.content doc)
             (Doc.category doc) (Doc.tags doc) timestamp :: metadata)
  end.

(** The property names every object literal inherits from
    [Object.prototype]. *)
Definition object_prototype_keys : list string :=
  ["constructor"; "__proto__"; "hasOwnProperty"; "isPrototypeOf";
   "propertyIsEnumerable"; "toLocaleString"; "toString"; "valueOf";
   "__defineGetter__"; "__defineSetter__"; "__lookupGetter__";
   "__lookupSetter__"].

(** Categories for which [acc[category]] reads an own property of the
    accumulator [{}] or nothing. *)
Definition plain_categories (docs : list Doc.t) : Prop :=
  Forall (λ doc, Doc.category doc ∉ object_prototype_keys) docs.

(** [acc[category] = (acc[category] || 0) + 1] on an accumulator that
    starts as [{}], as a list of its own properties in insertion order.
    This is what the code does for categories outside
    [object_prototype_keys] (for one of these [acc[category]] finds the
    inherited property) whose text is not a canonical array index (those
    [Object.entries] lists first); the four categories of
    [sampleDocuments] are of this kind. *)
Fixpoint count_category (category : string) (acc : list (string * nat))
    : list (string * nat) :=
  match acc with
  | [] => [(category, 1)]
  | (k, v) :: rest =>
      if String.eqb k category then (k, v + 1) :: rest
      else (k, v) :: count_category category rest
  end.

Definition categoryCounts (docs : list Doc.t) : list (string * nat) :=
  foldl (λ acc doc, count_category (Doc.category doc) acc) [] docs.

Fixpoint log_categories (entries : list (string * nat)) : Prog unit :=
  match entries with
  | [] => Ret ()
  | (category, count) :: rest =>
      log (LogCategory category count);; log_categories rest
  end.

(** Steps 2 to 6: embed, insert, wait, report. *)
Definition ingest_documents (indexName : string) : Prog unit :=
  log (LogGenerating (length sampleDocuments));;
  embeddings ← embed_documents (length sampleDocuments) 0 sampleDocuments [];
  log LogEmbeddingsGenerated;;
  log LogInserting;;
  metadata ← stamp_documents sampleDocuments;
  await (VUpsert indexName embeddings metadata);;
  log LogInserted;;
  log LogWaiting;;
  sleep 3000;;
  stats ← await (VDescribeIndex indexName);
  log (LogStats indexName stats);;
  log LogCategoriesHeader;;
  log_categories (categoryCounts sampleDocuments);;
  log LogDone;;
  log LogNextStep.

(** The outer [catch]: report and [process.exit(1)]. *)
Definition on_fatal (error : Exn) : Prog unit :=
  m ← read_message error;
  log (LogError m);;
  log (LogErrorObject error);;
  Exit 1.

(** [populateKnowledgeBase()].  Constructing the client
    ([new AzureAISearchVector]) issues no request and is left out. *)
Definition populateKnowledgeBase (env : Env) : Prog unit :=
  log LogBanner;;
  if str_not (env !! "AZURE_AI_SEARCH_ENDPOINT")
     || str_not (env !! "AZURE_AI_SEARCH_CREDENTIAL")
  then log LogMissingSearchConfig;; Exit 1
  else if str_not (env !! "OPENAI_API_KEY")
  then log LogMissingOpenAIKey;; Exit 1
  else
    let indexName := "knowledge-base" in
    try_catch
      (log (LogCreatingIndex indexName);;
       create_index indexName;;
       ingest_documents indexName)
      on_fatal.

(** [evs] happened, then [r]. *)
Definition after {W A} (evs : list Event) (r : Run.t W A) : Run.t W A :=
  Run.mk (Run.outcome r) (Run.final r) (evs ++ Run.trace r).

(** The text contains ['already exists']. *)
Definition mentions_already_exists (error : Exn) : Prop :=
  ∃ e before behind,
    error = ExnError e ∧
    message e = Some (before +:+ "already exists" +:+ behind).

(** ** Conversational memory *)

Inductive Scope : Type := ThreadScope | ResourceScope.

(** The [options] of [new Memory] that govern what is injected. *)
Module MemoryOptions.
Record t := mk {
  lastMessages : nat;
  topK : nat;
  messageRange : nat;
  scope : Scope;
}.
End MemoryOptions.

(** The options [knowledgeMemoryAgent] is built with. *)
Definition memoryOptions : MemoryOptions.t :=
  {| MemoryOptions.lastMessages := 20;
     MemoryOptions.topK := 5;
     MemoryOptions.messageRange := 2;
     MemoryOptions.scope := ResourceScope |}.

(** Modelled from the spec: a ConversationMessage (section 3).  The agent
    file only configures the memory; the record and the recall algorithm
    below live in the memory library.  [created_at] is the sequence number
    of the message. *)
Module Message.
Record t := mk {
  id : string;
  thread_id : string;
  resource_id : string;
  content : string;
  created_at : nat;
}.
End Message.

(** Modelled from the spec: the Durable Content Store holds the messages of
    a resource in original conversation order; this is where an id sits in
    it, if anywhere. *)
Fixpoint position_of (id : string) (conversation : list Message.t) : option nat :=
  match conversation with
  | [] => None
  | m :: rest =>
      if String.eqb (Message.id m) id then Some 0
      else S <$> position_of id rest
  end.

(** Modelled from the spec: step 3 of section 4.5, Expand.  The hit plus
    [range] neighbours immediately before and after it in original
    conversation order; a pointer to a message the store does not hold has
    no neighbours. *)
Definition neighbourhood (range : nat) (conversation : list Message.t)
    (hit : string) : list string :=
  match position_of hit conversation with
  | Some p =>
      Message.id <$>
        take (p + range + 1 - (p - range)) (drop (p - range) conversation)
  | None => [hit]
  end.

(** Modelled from the spec: step 4 of section 4.5, Resolve.  The content row
    of an id; ids without a row are skipped. *)
Fixpoint fetch (id : string) (conversation : list Message.t) : option Message.t :=
  match conversation with
  | [] => None
  | m :: rest =>
      if String.eqb (Message.id m) id then Some m else fetch id rest
  end.

(** Modelled from the spec: the batch fetch of step 4, dropping every id
    that fails to resolve. *)
Definition resolve (conversation : list Message.t) (ids : list string)
    : list Message.t :=
  omap (λ id, fetch id conversation) ids.

(** Modelled from the spec: step 5 of section 4.5, collapse duplicate ids
    (the first occurrence stays). *)
Fixpoint dedupe (seen : list string) (ms : list Message.t) : list Message.t :=
  match ms with
  | [] => []
  | m :: rest =>
      if bool_decide (Message.id m ∈ seen) then dedupe seen rest
      else m :: dedupe (Message.id m :: seen) rest
  end.

(** Modelled from the spec: step 5 of section 4.5, sort by original
    sequence (a stable insertion sort on [created_at]). *)
Fixpoint insert_by_time (m : Message.t) (ms : list Message.t) : list Message.t :=
  match ms with
  | [] => [m]
  | m' :: rest =>
      if Message.created_at m <=? Message.created_at m' then m :: ms
      else m' :: insert_by_time m rest
  end.

(** Modelled from the spec: the sort of step 5. *)
Definition sort_by_time (ms : list Message.t) : list Message.t :=
  foldr insert_by_time [] ms.

(** Modelled from the spec: steps 3 to 5 of section 4.5 for the pointers
    the vector index answered with (at most [topK] are used). *)
Definition recallWindow (options : MemoryOptions.t)
    (conversation : list Message.t) (hits : list string) : list Message.t :=
  let expanded :=
    concat (neighbourhood (MemoryOptions.messageRange options) conversation
              <$> take (MemoryOptions.topK options) hits) in
  sort_by_time (dedupe [] (resolve conversation expanded)).

(** Modelled from the spec: the N most recent messages ([lastMessages]). *)
Definition recencyWindow (options : MemoryOptions.t)
    (conversation : list Message.t) : list Message.t :=
  drop (length conversation - MemoryOptions.lastMessages options) conversation.

(** Modelled from the spec: step 6 of section 4.5, Emit.  The recalled
    sequence is handed over next to the recency window, not instead of
    it. *)
Module Injected.
Record t := mk {
  recalled : list Message.t;
  recent : list Message.t;
}.
End Injected.

(** Modelled from the spec: the context built for one incoming message. *)
Definition buildContext (options : MemoryOptions.t)
    (conversation : list Message.t) (hits : list string) : Injected.t :=
  {| Injected.recalled := recallWindow options conversation hits;
     Injected.recent := recencyWindow options conversation |}.

(** Messages are in sequence order. *)
Definition chronological (conversation : list Message.t) : Prop :=
  StronglySorted (λ a b, Message.created_at a ≤ Message.created_at b)
    conversation.

(** A thread of [n] messages numbered from [first]. *)
Fixpoint sample_thread (first n : nat) : list Message.t :=
  match n with
  | 0 => []
  | S n' =>
      {| Message.id := "m" +:+ pretty first;
         Message.thread_id := "thread-1";
         Message.resource_id := "user-1";
         Message.content := "message " +:+ pretty first;
         Message.created_at := first |} :: sample_thread (S first) n'
  end.

(** ** Predicates on programs and runs *)

(** The hits a trace shows the vector store to have answered with. *)
Definition hits_of (ev : Event) : option (list QueryResult.t) :=
  match ev with
  | EvCall c r =>
      match c return Answer c → option (list QueryResult.t) with
      | VQuery _ _ _ => λ r, match r with inr hits => Some hits | inl _ => None end
      | _ => λ _, None
      end r
  | _ => None
  end.

Definition query_answers (t : list Event) : list (list QueryResult.t) :=
  omap hits_of t.

Definition is_embed (c : Svc) : bool :=
  match c with Embed _ _ => true | _ => false end.

(** The calls of a trace that were rejected. *)
Definition rejected (ev : Event) : bool :=
  match ev with
  | EvCall _ (inl _) => true
  | _ => false
  end.

(** A result as the tool boundary promises it: a success flag together
    with a payload, or together with a non-empty error text. *)
Definition structured {P} (r : ToolResult P) : Prop :=
  (success r = true ∧ is_Some (payload_of r) ∧ error_of r = None) ∨
  (success r = false ∧ payload_of r = None ∧
   ∃ e, error_of r = Some e ∧ e ≠ "").

(** The value a run returned, if it returned. *)
Definition result_of {A} (o : Outcome A) : option A :=
  match o with Returned a => Some a | _ => None end.

(** How a run of a search tool relates to the answers of the services,
    given that the credential is configured. *)
Definition search_cases {W A} (S : Services W) (context : SearchContext.t)
    (w : W) (r : Run.t W (ToolResult A)) : Prop :=
  let embed := Embed embedding_model (SearchContext.query context) in
  let query emb :=
    VQuery (SearchContext.indexName context) emb (SearchContext.topK context) in
  match serve S w embed with
  | (inl e, w1) =>
      Run.trace r = [EvCall embed (inl e)] ∧
      ∀ p, Run.outcome r ≠ Returned (Ok p)
  | (inr emb, w1) =>
      match serve S w1 (query emb) with
      | (inl e, w2) =>
          Run.trace r = [EvCall embed (inr emb); EvCall (query emb) (inl e)] ∧
          ∀ p, Run.outcome r ≠ Returned (Ok p)
      | (inr hits, w2) =>
          Run.trace r = [EvCall embed (inr emb); EvCall (query emb) (inr hits)] ∧
          ∃ p, Run.outcome r = Returned (Ok p)
      end
  end.

(** The tool passed its arguments on without looking at them. *)
Definition forwarded_unchecked {W A} (S : Services W)
    (context : SearchContext.t) (w : W) (r : Run.t W (ToolResult A)) : Prop :=
  head (calls (Run.trace r))
    = Some (Embed embedding_model (SearchContext.query context)) ∧
  (∀ emb w1,
     serve S w (Embed embedding_model (SearchContext.query context))
       = (inr emb, w1) →
     calls (Run.trace r) =
       [Embed embedding_model (SearchContext.query context);
        VQuery (SearchContext.indexName context) emb
          (SearchContext.topK context)]) ∧
  (∀ e, Run.outcome r = Returned (Fail e) →
     existsb rejected (Run.trace r) = true).

(** ** A sample deployment

    A concrete implementation of the services, used to run the tools on
    concrete inputs.  The state counts the requests served. *)

(** Scores as the examples render them; the theorems hold for every
    rendering. *)
Definition sample_toFixed : number → nat → string := λ _ _, "0.8750".

Definition sample_timestamp : string := "2025-01-01T00:00:00.000Z".

Definition sample_env : Env :=
  list_to_map [
    ("OPENAI_API_KEY", "sk-test");
    ("AZURE_AI_SEARCH_ENDPOINT", "https://demo.search.windows.net");
    ("AZURE_AI_SEARCH_CREDENTIAL", "secret")
  ].

(** A hit with every field, and a hit with none. *)
Definition full_hit : QueryResult.t :=
  {| QueryResult.id := "doc-1";
     QueryResult.score := Some 0.875%float;
     QueryResult.metadata :=
       Some (document_metadata "Vector Databases" "RAG" "technology"
               ["databases"] sample_timestamp);
     QueryResult.document := Some "RAG" |}.

Definition bare_hit : QueryResult.t :=
  {| QueryResult.id := "doc-2";
     QueryResult.score := None;
     QueryResult.metadata := None;
     QueryResult.document := None |}.

Definition sample_serve (created : Exn + unit) (w : nat) (c : Svc)
    : Answer c * nat :=
  (match c return Answer c with
   | Embed _ _ => inr [0.25; 0.5]%float
   | VQuery _ _ _ => inr [full_hit; bare_hit]
   | VUpsert _ _ _ => inr ["doc-3"]
   | VListIndexes => inr ["knowledge-base"]
   | VDescribeIndex _ =>
       inr {| IndexStats.count := 12;
              IndexStats.dimension := 1536;
              IndexStats.metric := Some "cosine" |}
   | VCreateIndex _ _ _ => created
   end, S w).

Definition sample_clock (w : nat) : string * nat := (sample_timestamp, w).

Definition sample_services (created : Exn + unit) : Services nat :=
  mkServices nat (sample_serve created) sample_clock.

Definition sample_add : AddContext.t :=
  {| AddContext.title := "X";
     AddContext.content := "Y";
     AddContext.category := "technology";
     AddContext.indexName := "kb";
     AddContext.tags := None |}.

(** A search whose text is empty and whose [topK] is zero. *)
Definition degenerate_search : SearchContext.t :=
  {| SearchContext.query := "";
     SearchContext.indexName := "knowledge-base";
     SearchContext.topK := 0 |}.

Definition plain_search : SearchInput.t :=
  {| SearchInput.query := "vector databases";
     SearchInput.indexName := None;
     SearchInput.topK := None |}.

(** ** What a program can do

    [shape ok P Q T X p]: as long as no request is rejected with a value
    outside [ok], every request [p] can issue satisfies [P], every value it
    can return satisfies [Q], every error it can throw satisfies [T] and
    every exit code it can end with satisfies [X]. *)
Definition answer_in {A} (ok : Exn → Prop) (r : Exn + A) : Prop :=
  match r with
  | inl e => ok e
  | inr _ => True
  end.

Inductive shape {A} (ok : Exn → Prop) (P : Svc → Prop) (Q : A → Prop)
    (T : Exn → Prop) (X : Z → Prop) : Prog A → Prop :=
| shape_ret a : Q a → shape ok P Q T X (Ret a)
| shape_throw e : T e → shape ok P Q T X (Throw e)
| shape_exit code : X code → shape ok P Q T X (Exit code)
| shape_call c k :
    P c → (∀ r, answer_in ok r → shape ok P Q T X (k r)) →
    shape ok P Q T X (Call c k)
| shape_now k : (∀ s, shape ok P Q T X (k s)) → shape ok P Q T X (Now k)
| shape_sleep ms k : shape ok P Q T X k → shape ok P Q T X (Sleep ms k)
| shape_log l k : shape ok P Q T X k → shape ok P Q T X (Log l k).

(** The services reject with values in [ok] only. *)
Definition rejects_within {W} (ok : Exn → Prop) (S : Services W) : Prop :=
  ∀ w c, answer_in ok (fst (serve S w c)).

(** Anything may be rejected with. *)
Definition any_exn : Exn → Prop := λ _, True.

(** A rejection that carries an object: neither [null] nor [undefined]. *)
Definition is_object (error : Exn) : Prop :=
  match error with
  | ExnError _ => True
  | ExnNull | ExnUndefined => False
  end.

(** The error raised by reading [.message] from [null] or [undefined]. *)
Definition is_message_read_error (error : Exn) : Prop :=
  error = ExnError (cannot_read_message "null") ∨
  error = ExnError (cannot_read_message "undefined").

(** What the outcome of a run is allowed to be. *)
Definition outcome_in {A} (Q : A → Prop) (T : Exn → Prop) (X : Z → Prop)
    (o : Outcome A) : Prop :=
  match o with
  | Returned a => Q a
  | Thrown e => T e
  | Exited code => X code
  end.

Definition is_upsert (c : Svc) : bool :=
  match c with VUpsert _ _ _ => true | _ => false end.

(** The sample deployment with some requests rejected: [reject] picks
    them and the error they are rejected with. *)
Definition rejecting_serve (reject : Svc → option Exn) (w : nat) (c : Svc)
    : Answer c * nat :=
  (match reject c with
   | Some error => inl error
   | None => fst (sample_serve (inr ()) w c)
   end, S w).

Definition rejecting_services (reject : Svc → option Exn) : Services nat :=
  mkServices nat (rejecting_serve reject) sample_clock.

Definition is_query (c : Svc) : bool :=
  match c with VQuery _ _ _ => true | _ => false end.

Definition rate_limited : JsError := mkError (Some "rate limit exceeded").

(** An error object without a message. *)
Definition silent_error : JsError := mkError None.

Definition reject_when (select : Svc → bool) (error : Exn) (c : Svc)
    : option Exn :=
  if select c then Some error else None.

(** The embedding request the ingestion script issues for a document. *)
Definition embed_request (doc : Doc.t) : Svc :=
  Embed embedding_model (Doc.title doc +:+ newline +:+ Doc.content doc).

(** [ms] are the metadata objects of [docs], one per document and in the
    same order, each with some timestamp. *)
Definition metadata_of (docs : list Doc.t) (ms : list Metadata) : Prop :=
  Forall2
    (λ doc m, ∃ timestamp,
       m = document_metadata (Doc.title doc) (Doc.content doc)
             (Doc.category doc) (Doc.tags doc) timestamp)
    docs ms.

(** An upsert of the ingestion script as it should be: into
    ['knowledge-base'], one vector and one metadata object per sample
    document. *)
Definition aligned_upsert (c : Svc) : Prop :=
  match c with
  | VUpsert indexName vectors metadata =>
      indexName = "knowledge-base" ∧
      length vectors = length sampleDocuments ∧
      metadata_of sampleDocuments metadata
  | _ => True
  end.

(** Steps 3 to 6 of the ingestion script, given the embeddings of step 2
    (the continuation of the loop in [ingest_documents]). *)
Definition insert_and_report (indexName : string)
    (embeddings : list (list number)) : Prog unit :=
  log LogEmbeddingsGenerated;;
  log LogInserting;;
  metadata ← stamp_documents sampleDocuments;
  await (VUpsert indexName embeddings metadata);;
  log LogInserted;;
  log LogWaiting;;
  sleep 3000;;
  stats ← await (VDescribeIndex indexName);
  log (LogStats indexName stats);;
  log LogCategoriesHeader;;
  log_categories (categoryCounts sampleDocuments);;
  log LogDone;;
  log LogNextStep.

(** The number of documents of a category. *)
Definition documents_in (category : string) (docs : list Doc.t) : nat :=
  length (List.filter (λ doc, String.eqb (Doc.category doc) category) docs).

(** What the sample deployment is asked to upsert by the ingestion
    script. *)
Definition sample_vectors : list (list number) :=
  replicate (length sampleDocuments) [0.25; 0.5]%float.

Definition sample_metadata : list Metadata :=
  (λ doc, document_metadata (Doc.title doc) (Doc.content doc)
            (Doc.category doc) (Doc.tags doc) sample_timestamp)
    <$> sampleDocuments.

(** [acc[category]] *)
Fixpoint lookup_count (category : string) (acc : list (string * nat))
    : option nat :=
  match acc with
  | [] => None
  | (k, v) :: rest =>
      if String.eqb k category then Some v else lookup_count category rest
  end.

Definition is_create (c : Svc) : bool :=
  match c with VCreateIndex _ _ _ => true | _ => false end.

(** Services that let an ingestion through: every request resolves, except
    that [createIndex] may be rejected because the index already exists. *)
Definition cooperative {W} (S : Services W) : Prop :=
  ∀ w c,
    match fst (serve S w c) with
    | inr _ => True
    | inl error => is_create c = true ∧ mentions_already_exists error
    end.

(** What a run did, console output and answers left aside. *)
Inductive Step : Type :=
| Requested (c : Svc)
| ReadClock
| Paused (ms : nat).

Definition step_of (ev : Event) : option Step :=
  match ev with
  | EvCall c _ => Some (Requested c)
  | EvNow _ => Some ReadClock
  | EvSleep ms => Some (Paused ms)
  | EvLog _ => None
  end.

Definition steps (t : list Event) : list Step := omap step_of t.

(** The rejection of [createIndex] for an index that is there. *)
Definition index_present : Exn :=
  ExnError (mkError (Some "Index 'knowledge-base' already exists")).

(** A request that changes the vector store. *)
Definition writes (c : Svc) : bool := is_upsert c || is_create c.

(** * Properties *)

(** ** Reasoning about runs *)

Lemma run_bind {W A B} (S : Services W) (p : Prog A) (f : A → Prog B) (w : W) :
  run S (p ≫= f) w =
    match Run.outcome (run S p w) with
    | Returned a =>
        after (Run.trace (run S p w)) (run S (f a) (Run.final (run S p w)))
    | Thrown e =>
        Run.mk (Thrown e) (Run.final (run S p w)) (Run.trace (run S p w))
    | Exited code =>
        Run.mk (Exited code) (Run.final (run S p w)) (Run.trace (run S p w))
    end.
Proof.
  unfold mbind, prog_bind. revert w.
  induction p as [a|e|code|c k IH|k IH|ms k IH|l k IH]; intros w; simpl.
  - unfold after. simpl. by destruct (run S (f a) w).
  - done.
  - done.
  - destruct (serve S w c) as [r w']. rewrite IH. unfold emit, after. simpl.
    by destruct (Run.outcome (run S (k r) w')).
  - destruct (clock S w) as [s w']. rewrite IH. unfold emit, after. simpl.
    by destruct (Run.outcome (run S (k s) w')).
  - rewrite IH. unfold emit, after. simpl.
    by destruct (Run.outcome (run S k w)).
  - rewrite IH. unfold emit, after. simpl.
    by destruct (Run.outcome (run S k w)).
Qed.

Lemma run_try_catch {W A} (S : Services W) (p : Prog A) (h : Exn → Prog A)
    (w : W) :
  run S (try_catch p h) w =
    match Run.outcome (run S p w) with
    | Thrown e =>
        after (Run.trace (run S p w)) (run S (h e) (Run.final (run S p w)))
    | _ => run S p w
    end.
Proof.
  revert w.
  induction p as [a|e|code|c k IH|k IH|ms k IH|l k IH]; intros w; simpl.
  - done.
  - unfold after. simpl. by destruct (run S (h e) w).
  - done.
  - destruct (serve S w c) as [r w']. rewrite IH. unfold emit, after.
    by destruct (run S (k r) w') as [[a|e|code] w'' t].
  - destruct (clock S w) as [s w']. rewrite IH. unfold emit, after.
    by destruct (run S (k s) w') as [[a|e|code] w'' t].
  - rewrite IH. unfold emit, after.
    by destruct (run S k w) as [[a|e|code] w'' t].
  - rewrite IH. unfold emit, after.
    by destruct (run S k w) as [[a|e|code] w'' t].
Qed.

Lemma shape_sound {W A} (S : Services W) ok P (Q : A → Prop) T X (p : Prog A) :
  rejects_within ok S →
  shape ok P Q T X p →
  ∀ w, Forall P (calls (Run.trace (run S p w)))
       ∧ outcome_in Q T X (Run.outcome (run S p w)).
Proof.
  intros HS.
  induction 1 as [a Ha|e He|code Hc|c k Hc _ IH|k _ IH|ms k _ IH|l k _ IH];
    intros w; simpl; try (split; [constructor|done]).
  - pose proof (HS w c) as Hr.
    destruct (serve S w c) as [r w']. simpl in Hr |- *.
    destruct (IH r Hr w') as [Hcalls Hout]. split; [by constructor|done].
  - destruct (clock S w) as [s w']. simpl. apply IH.
  - apply IH.
  - apply IH.
Qed.

Lemma rejects_within_any {W} (S : Services W) : rejects_within any_exn S.
Proof. intros w c. by destruct (fst (serve S w c)). Qed.

Lemma shape_weaken {A} ok (P P' : Svc → Prop) (Q Q' : A → Prop)
    (T T' : Exn → Prop) (X X' : Z → Prop) (p : Prog A) :
  (∀ c, P c → P' c) → (∀ a, Q a → Q' a) → (∀ e, T e → T' e) →
  (∀ code, X code → X' code) →
  shape ok P Q T X p → shape ok P' Q' T' X' p.
Proof.
  intros HP HQ HT HX. induction 1; constructor; auto.
Qed.

Lemma shape_bind {A B} ok P (Q : B → Prop) (Q' : A → Prop) T X
    (p : Prog A) (f : A → Prog B) :
  shape ok P Q' T X p → (∀ a, Q' a → shape ok P Q T X (f a)) →
  shape ok P Q T X (p ≫= f).
Proof.
  unfold mbind, prog_bind. intros Hp Hf.
  induction Hp; simpl; try (constructor; auto); auto.
Qed.

Lemma shape_try_catch {A} ok P (Q : A → Prop) (T T' : Exn → Prop) X
    (p : Prog A) (h : Exn → Prog A) :
  shape ok P Q T' X p → (∀ e, T' e → shape ok P Q T X (h e)) →
  shape ok P Q T X (try_catch p h).
Proof.
  intros Hp Hh. induction Hp; simpl; try (constructor; auto); auto.
Qed.

Lemma shape_await ok (P : Svc → Prop) (T : Exn → Prop) (X : Z → Prop)
    (c : Svc) :
  P c → (∀ e, ok e → T e) → shape ok P (λ _ : Resp c, True) T X (await c).
Proof.
  intros Hc HT. unfold await. constructor; [done|].
  intros [e|v] Hr; constructor; auto.
Qed.

Lemma shape_log_unit ok (P : Svc → Prop) (T : Exn → Prop) (X : Z → Prop)
    (l : LogLine) :
  shape ok P (λ _ : unit, True) T X (log l).
Proof. unfold log. by repeat constructor. Qed.

Lemma shape_sleep_unit ok (P : Svc → Prop) (T : Exn → Prop) (X : Z → Prop)
    (ms : nat) :
  shape ok P (λ _ : unit, True) T X (sleep ms).
Proof. unfold sleep. by repeat constructor. Qed.

Lemma str_or_truthy (s : option string) (d : string) :
  str_truthy d = true → str_truthy (str_or s d) = true.
Proof.
  intros Hd. destruct s as [x|]; simpl; [|done].
  destruct (str_truthy x) eqn:Hx; done.
Qed.

Lemma str_truthy_nonempty (s : string) : str_truthy s = true ↔ s ≠ "".
Proof. destruct s; simpl; split; (done || congruence). Qed.

Lemma structured_Ok {P} (p : P) : structured (Ok p).
Proof. left. simpl. eauto. Qed.

Lemma structured_Fail {P} (e : string) :
  str_truthy e = true → structured (@Fail P e).
Proof.
  intros He. right. simpl. repeat split; [].
  exists e. split; [done|]. by apply str_truthy_nonempty.
Qed.

Lemma structured_failure {P} (d : string) (m : option string) :
  str_truthy d = true → structured (@Fail P (str_or m d)).
Proof. intros Hd. by apply structured_Fail, str_or_truthy. Qed.

Lemma search_body_inv {W} (S : Services W) toFixed env ctx w p :
  Run.outcome (run S (searchDocumentsTool toFixed env ctx) w) = Returned (Ok p) →
  ∃ (emb : list number) w1 (hits : list QueryResult.t) w2,
    str_not (env !! "OPENAI_API_KEY") = false ∧
    serve S w (Embed embedding_model (SearchContext.query ctx)) = (inr emb, w1) ∧
    serve S w1 (VQuery (SearchContext.indexName ctx) emb (SearchContext.topK ctx))
      = (inr hits, w2) ∧
    Run.trace (run S (searchDocumentsTool toFixed env ctx) w) =
      [EvCall (Embed embedding_model (SearchContext.query ctx)) (inr emb);
       EvCall (VQuery (SearchContext.indexName ctx) emb (SearchContext.topK ctx))
         (inr hits)] ∧
    p = {| SearchPayload.query := SearchContext.query ctx;
           SearchPayload.resultsCount := length hits;
           SearchPayload.results := imap (formatResult toFixed) hits |}.
Proof.
  unfold searchDocumentsTool.
  destruct (str_not (env !! "OPENAI_API_KEY")) eqn:Hkey; simpl; [done|].
  destruct (serve S w _) as [[e|emb] w1] eqn:H1; simpl; [by destruct e|].
  destruct (serve S w1 _) as [[e|hits] w2] eqn:H2; simpl; [by destruct e|].
  intros [= <-]. exists emb, w1, hits, w2. by rewrite H2.
Qed.

Lemma filters_body_inv {W} (S : Services W) toFixed env ctx w p :
  Run.outcome (run S (searchWithFiltersTool toFixed env ctx) w) = Returned (Ok p) →
  ∃ (emb : list number) w1 (hits : list QueryResult.t) w2,
    str_not (env !! "OPENAI_API_KEY") = false ∧
    serve S w (Embed embedding_model (SearchContext.query ctx)) = (inr emb, w1) ∧
    serve S w1 (VQuery (SearchContext.indexName ctx) emb (SearchContext.topK ctx))
      = (inr hits, w2) ∧
    Run.trace (run S (searchWithFiltersTool toFixed env ctx) w) =
      [EvCall (Embed embedding_model (SearchContext.query ctx)) (inr emb);
       EvCall (VQuery (SearchContext.indexName ctx) emb (SearchContext.topK ctx))
         (inr hits)] ∧
    p = {| SearchPayload.query := SearchContext.query ctx;
           SearchPayload.resultsCount := length hits;
           SearchPayload.results := imap (formatSnippet toFixed) hits |}.
Proof.
  unfold searchWithFiltersTool.
  destruct (str_not (env !! "OPENAI_API_KEY")) eqn:Hkey; simpl; [done|].
  destruct (serve S w _) as [[e|emb] w1] eqn:H1; simpl; [by destruct e|].
  destruct (serve S w1 _) as [[e|hits] w2] eqn:H2; simpl; [by destruct e|].
  intros [= <-]. exists emb, w1, hits, w2. by rewrite H2.
Qed.

(** *** Strings *)

Lemma substring0_short (n : nat) (s : string) :
  String.length s ≤ n → substring0 n s = s.
Proof.
  unfold substring0. revert n.
  induction s as [|a s IH]; intros [|n] Hn; simpl in *; try done; try lia.
  f_equal. apply IH. lia.
Qed.

Lemma substring0_split (n : nat) (s : string) :
  n ≤ String.length s →
  ∃ rest, s = substring0 n s +:+ rest ∧ String.length (substring0 n s) = n.
Proof.
  unfold substring0. revert n.
  induction s as [|a s IH]; intros [|n] Hn; simpl in *; try lia.
  - by exists "".
  - by exists (String a s).
  - destruct (IH n) as (rest & Hs & Hlen); [lia|].
    exists rest. split.
    + change (String a s = String a (String.substring 0 n s +:+ rest)).
      by rewrite <- Hs.
    + simpl. by rewrite Hlen.
Qed.

Lemma length_append (s t : string) :
  String.length (s +:+ t) = String.length s + String.length t.
Proof. induction s as [|a s IH]; simpl; [done|by rewrite IH]. Qed.

(** ** The tool boundary *)

Ltac shape_tac :=
  repeat first
    [ apply shape_ret; first [apply structured_Ok | by apply structured_Fail]
    | apply shape_throw; assumption
    | apply shape_call; [exact I|intros [?|?] ?; simpl in *]
    | apply shape_now; intros ?; simpl ].

(** The tool boundary: the body runs inside [try], and for an error object
    the handler returns a failure result. *)
Lemma boundary_structured {W P} (S : Services W) (body : Prog (ToolResult P))
    (d : string) :
  rejects_within is_object S →
  shape is_object (λ _, True) structured is_object (λ _, False) body →
  str_truthy d = true →
  ∀ w, ∃ r, Run.outcome (run S (try_catch body (failure d)) w) = Returned r
            ∧ structured r.
Proof.
  intros HS Hb Hd w.
  assert (shape is_object (λ _, True) (@structured P) (λ _, False) (λ _, False)
            (try_catch body (failure d))) as Hshape.
  { eapply shape_try_catch; [exact Hb|].
    intros [| |e] He; try done. simpl. constructor.
    by apply structured_failure. }
  destruct (shape_sound S _ _ _ _ _ _ HS Hshape w) as [_ Hout].
  destruct (Run.outcome (run S (try_catch body (failure d)) w)) as [r|e|code];
    simpl in Hout; [by exists r|done|done].
Qed.

(** As long as every rejection carries an object (an [Error], as the SDKs
    raise them), each of the five tools returns a result with a success
    flag and either a payload or a non-empty error text. *)
Lemma error_objects_become_failure_results {W} (S : Services W)
    (toFixed : number → nat → string) (env : Env)
    (search : SearchContext.t) (add : AddContext.t) (indexName : string) (w : W) :
  rejects_within is_object S →
  (∃ r, Run.outcome (run S (searchDocumentsTool toFixed env search) w) = Returned r
        ∧ structured r) ∧
  (∃ r, Run.outcome (run S (addDocumentTool env add) w) = Returned r
        ∧ structured r) ∧
  (∃ r, Run.outcome (run S listIndexesTool w) = Returned r ∧ structured r) ∧
  (∃ r, Run.outcome (run S (getIndexStatsTool indexName) w) = Returned r
        ∧ structured r) ∧
  (∃ r, Run.outcome (run S (searchWithFiltersTool toFixed env search) w) = Returned r
        ∧ structured r).
Proof.
  intros HS. repeat split.
  - apply boundary_structured; [done| |done].
    destruct (str_not (env !! "OPENAI_API_KEY")); simpl; shape_tac.
  - apply boundary_structured; [done| |done].
    destruct (str_not (env !! "OPENAI_API_KEY")); simpl; shape_tac.
  - apply boundary_structured; [done| |done]. simpl. shape_tac.
  - apply boundary_structured; [done| |done]. simpl. shape_tac.
  - apply boundary_structured; [done| |done].
    destruct (str_not (env !! "OPENAI_API_KEY")); simpl; shape_tac.
Qed.

(** C3 does not hold of the code: every handler reads [error.message]
    from whatever was thrown.  When a request is rejected with [undefined]
    the read raises a [TypeError] inside the handler, and each of the five
    tools ends by throwing it instead of returning a result. *)
Theorem undefined_rejection_escapes_every_tool :
  let S := rejecting_services (λ _, Some ExnUndefined) in
  let context := searchSchema plain_search in
  run S (searchDocumentsTool sample_toFixed sample_env context) 0 =
    Run.mk (Thrown (ExnError (cannot_read_message "undefined"))) 1
      [EvCall (Embed "text-embedding-3-small" "vector databases")
         (inl ExnUndefined)] ∧
  run S (addDocumentTool sample_env sample_add) 0 =
    Run.mk (Thrown (ExnError (cannot_read_message "undefined"))) 1
      [EvCall (Embed "text-embedding-3-small" ("X" +:+ String "010" "Y"))
         (inl ExnUndefined)] ∧
  run S listIndexesTool 0 =
    Run.mk (Thrown (ExnError (cannot_read_message "undefined"))) 1
      [EvCall VListIndexes (inl ExnUndefined)] ∧
  run S (getIndexStatsTool "knowledge-base") 0 =
    Run.mk (Thrown (ExnError (cannot_read_message "undefined"))) 1
      [EvCall (VDescribeIndex "knowledge-base") (inl ExnUndefined)] ∧
  run S (searchWithFiltersTool sample_toFixed sample_env context) 0 =
    Run.mk (Thrown (ExnError (cannot_read_message "undefined"))) 1
      [EvCall (Embed "text-embedding-3-small" "vector databases")
         (inl ExnUndefined)] ∧
  message (cannot_read_message "undefined")
    = Some "Cannot read properties of undefined (reading 'message')".
Proof. repeat split. Qed.

(** C6: without the embedding credential the three embedding tools return
    the configuration failure at once: no request is issued and the
    services are left as they were. *)
Theorem missing_key_fails_before_any_request {W} (S : Services W)
    (toFixed : number → nat → string) (env : Env)
    (search : SearchContext.t) (add : AddContext.t) (w : W) :
  str_not (env !! "OPENAI_API_KEY") = true →
  run S (searchDocumentsTool toFixed env search) w
    = Run.mk (Returned (Fail "OpenAI API key is not configured")) w [] ∧
  run S (addDocumentTool env add) w
    = Run.mk (Returned (Fail "OpenAI API key is not configured")) w [] ∧
  run S (searchWithFiltersTool toFixed env search) w
    = Run.mk (Returned (Fail "OpenAI API key is not configured")) w [].
Proof.
  intros Hkey.
  unfold searchDocumentsTool, addDocumentTool, searchWithFiltersTool.
  rewrite Hkey. done.
Qed.

Lemma missing_key_fails_before_any_request_witness :
  run (sample_services (inr ()))
      (searchDocumentsTool sample_toFixed ∅ degenerate_search) 0
    = Run.mk (Returned (Fail "OpenAI API key is not configured")) 0 [] ∧
  run (sample_services (inr ())) (addDocumentTool ∅ sample_add) 0
    = Run.mk (Returned (Fail "OpenAI API key is not configured")) 0 [] ∧
  run (sample_services (inr ()))
      (searchWithFiltersTool sample_toFixed ∅ degenerate_search) 0
    = Run.mk (Returned (Fail "OpenAI API key is not configured")) 0 [].
Proof.
  apply (missing_key_fails_before_any_request (sample_services (inr ()))
           sample_toFixed ∅ degenerate_search sample_add 0).
  reflexivity.
Defined.

(** ** Searching *)

(** C10: on success the reported [resultsCount] is the length of the
    returned [results], and both equal the number of hits the vector store
    answered the query with; this holds for both search tools. *)
Theorem resultsCount_is_number_of_hits {W} (S : Services W)
    (toFixed : number → nat → string) (env : Env) (context : SearchContext.t)
    (w : W) :
  (∀ p,
     Run.outcome (run S (searchDocumentsTool toFixed env context) w)
       = Returned (Ok p) →
     ∃ hits,
       query_answers (Run.trace (run S (searchDocumentsTool toFixed env context) w))
         = [hits] ∧
       SearchPayload.resultsCount p = length (SearchPayload.results p) ∧
       length (SearchPayload.results p) = length hits) ∧
  (∀ p,
     Run.outcome (run S (searchWithFiltersTool toFixed env context) w)
       = Returned (Ok p) →
     ∃ hits,
       query_answers (Run.trace (run S (searchWithFiltersTool toFixed env context) w))
         = [hits] ∧
       SearchPayload.resultsCount p = length (SearchPayload.results p) ∧
       length (SearchPayload.results p) = length hits).
Proof.
  split; intros p Hp.
  - apply search_body_inv in Hp as (emb & w1 & hits & w2 & _ & _ & _ & Ht & ->).
    exists hits. rewrite Ht. simpl. by rewrite length_imap.
  - apply filters_body_inv in Hp as (emb & w1 & hits & w2 & _ & _ & _ & Ht & ->).
    exists hits. rewrite Ht. simpl. by rewrite length_imap.
Qed.

Lemma resultsCount_is_number_of_hits_witness :
  let docs := run (sample_services (inr ()))
                (searchDocumentsTool sample_toFixed sample_env degenerate_search) 0 in
  let snippets := run (sample_services (inr ()))
                    (searchWithFiltersTool sample_toFixed sample_env degenerate_search) 0 in
  (∃ p, Run.outcome docs = Returned (Ok p) ∧
        SearchPayload.resultsCount p = 2 ∧ length (SearchPayload.results p) = 2) ∧
  (∃ p, Run.outcome snippets = Returned (Ok p) ∧
        SearchPayload.resultsCount p = 2 ∧ length (SearchPayload.results p) = 2).
Proof.
  pose proof (resultsCount_is_number_of_hits (sample_services (inr ()))
                sample_toFixed sample_env degenerate_search 0) as [Hdocs Hsnip].
  split.
  - eexists. split; [reflexivity|].
    destruct (Hdocs _ eq_refl) as (hits & Ht & Hcount & Hlen).
    injection Ht as <-. rewrite Hcount, Hlen. done.
  - eexists. split; [reflexivity|].
    destruct (Hsnip _ eq_refl) as (hits & Ht & Hcount & Hlen).
    injection Ht as <-. rewrite Hcount, Hlen. done.
Defined.

(** C5: a successful search embeds the query, asks the index for [topK]
    neighbours ([topK] is 5 when omitted), and returns one display record
    per hit, in the order of the hits: the record at index [i] has position
    [i + 1] and carries the score (rendered with four decimals), the title,
    the content, the category and the metadata of the hit at index [i]; a
    title, content or category that is a non-empty text is carried as it
    is. *)
Theorem search_formats_hits_in_order {W} (S : Services W)
    (toFixed : number → nat → string) (env : Env) (input : SearchInput.t)
    (w : W) (p : SearchPayload.t Formatted.t) :
  accepted_by_schema input →
  Run.outcome (run S (searchDocuments toFixed env input) w) = Returned (Ok p) →
  ∃ emb hits,
    calls (Run.trace (run S (searchDocuments toFixed env input) w)) =
      [Embed "text-embedding-3-small" (SearchInput.query input);
       VQuery
         match SearchInput.indexName input with
         | Some name => name
         | None => "knowledge-base"
         end
         emb
         match SearchInput.topK input with
         | Some k => k
         | None => 5%float
         end] ∧
    query_answers (Run.trace (run S (searchDocuments toFixed env input) w))
      = [hits] ∧
    length (SearchPayload.results p) = length hits ∧
    Formatted.metadata <$> SearchPayload.results p = QueryResult.metadata <$> hits ∧
    ∀ i hit, hits !! i = Some hit →
      ∃ d,
        SearchPayload.results p !! i = Some d ∧
        Formatted.position d = i + 1 ∧
        Formatted.score d =
          match QueryResult.score hit with
          | Some x => Some (toFixed x 4)
          | None => None
          end ∧
        Formatted.metadata d = QueryResult.metadata hit ∧
        Formatted.title d =
          match QueryResult.metadata hit with
          | Some m =>
              match m !! "title" with
              | Some v => if truthy v then v else JStr "Untitled"
              | None => JStr "Untitled"
              end
          | None => JStr "Untitled"
          end ∧
        Formatted.content d =
          match QueryResult.document hit with
          | Some (String a s) => String a s
          | _ => "No content"
          end ∧
        Formatted.category d =
          match QueryResult.metadata hit with
          | Some m =>
              match m !! "category" with
              | Some v => if truthy v then v else JStr "No category"
              | None => JStr "No category"
              end
          | None => JStr "No category"
          end ∧
        (∀ m a s, QueryResult.metadata hit = Some m →
                  m !! "title" = Some (JStr (String a s)) →
                  Formatted.title d = JStr (String a s)) ∧
        (∀ m a s, QueryResult.metadata hit = Some m →
                  m !! "category" = Some (JStr (String a s)) →
                  Formatted.category d = JStr (String a s)) ∧
        (∀ m, QueryResult.metadata hit = Some m → m !! "title" = Some (JStr "") →
              Formatted.title d = JStr "Untitled") ∧
        (∀ m, QueryResult.metadata hit = Some m → m !! "category" = Some (JStr "") →
              Formatted.category d = JStr "No category").
Proof.
  unfold searchDocuments. intros _ Hp.
  apply search_body_inv in Hp as (emb & w1 & hits & w2 & _ & _ & _ & Ht & ->).
  exists emb, hits. rewrite Ht. simpl.
  split; [by destruct (SearchInput.indexName input), (SearchInput.topK input)|].
  split; [done|]. split; [by rewrite length_imap|]. split.
  - apply list_eq. intros i.
    rewrite !list_lookup_fmap, list_lookup_imap. by destruct (hits !! i).
  - intros i hit Hi. exists (formatResult toFixed i hit).
    rewrite list_lookup_imap, Hi. unfold formatResult, score_text, metadata_field.
    cbn [Formatted.position Formatted.score Formatted.metadata Formatted.title
         Formatted.content Formatted.category].
    split; [done|]. split; [done|].
    split; [by destruct (QueryResult.score hit)|]. split; [done|].
    split; [by destruct (QueryResult.metadata hit) as [m|]|].
    split; [by destruct (QueryResult.document hit) as [[|a s]|]|].
    split; [by destruct (QueryResult.metadata hit) as [m|]|].
    repeat split.
    + intros m a s -> Hm. simpl. by rewrite Hm.
    + intros m a s -> Hm. simpl. by rewrite Hm.
    + intros m -> Hm. simpl. by rewrite Hm.
    + intros m -> Hm. simpl. by rewrite Hm.
Qed.

Lemma search_formats_hits_in_order_witness :
  let r := run (sample_services (inr ()))
             (searchDocuments sample_toFixed sample_env plain_search) 0 in
  accepted_by_schema plain_search ∧
  ∃ p,
    Run.outcome r = Returned (Ok p) ∧
    Formatted.position <$> SearchPayload.results p = [1; 2] ∧
    Formatted.score <$> SearchPayload.results p = [Some "0.8750"; None] ∧
    Formatted.title <$> SearchPayload.results p
      = [JStr "Vector Databases"; JStr "Untitled"] ∧
    Formatted.content <$> SearchPayload.results p = ["RAG"; "No content"] ∧
    Formatted.category <$> SearchPayload.results p
      = [JStr "technology"; JStr "No category"] ∧
    ∃ emb hits,
      calls (Run.trace r) =
        [Embed "text-embedding-3-small" "vector databases";
         VQuery "knowledge-base" emb 5%float] ∧
      query_answers (Run.trace r) = [hits] ∧
      length (SearchPayload.results p) = length hits ∧
      Formatted.metadata <$> SearchPayload.results p = QueryResult.metadata <$> hits ∧
      ∀ i hit, hits !! i = Some hit →
        ∃ d,
          SearchPayload.results p !! i = Some d ∧
          Formatted.position d = i + 1 ∧
          Formatted.score d =
            match QueryResult.score hit with
            | Some x => Some (sample_toFixed x 4)
            | None => None
            end ∧
          Formatted.metadata d = QueryResult.metadata hit ∧
          Formatted.title d =
            match QueryResult.metadata hit with
            | Some m =>
                match m !! "title" with
                | Some v => if truthy v then v else JStr "Untitled"
                | None => JStr "Untitled"
                end
            | None => JStr "Untitled"
            end ∧
          Formatted.content d =
            match QueryResult.document hit with
            | Some (String a s) => String a s
            | _ => "No content"
            end ∧
          Formatted.category d =
            match QueryResult.metadata hit with
            | Some m =>
                match m !! "category" with
                | Some v => if truthy v then v else JStr "No category"
                | None => JStr "No category"
                end
            | None => JStr "No category"
            end ∧
          (∀ m a s, QueryResult.metadata hit = Some m →
                    m !! "title" = Some (JStr (String a s)) →
                    Formatted.title d = JStr (String a s)) ∧
          (∀ m a s, QueryResult.metadata hit = Some m →
                    m !! "category" = Some (JStr (String a s)) →
                    Formatted.category d = JStr (String a s)) ∧
          (∀ m, QueryResult.metadata hit = Some m →
                m !! "title" = Some (JStr "") →
                Formatted.title d = JStr "Untitled") ∧
          (∀ m, QueryResult.metadata hit = Some m →
                m !! "category" = Some (JStr "") →
                Formatted.category d = JStr "No category").
Proof.
  assert (accepted_by_schema plain_search) as Haccepted by (intros x [=]).
  split; [exact Haccepted|].
  eexists. split; [reflexivity|].
  do 5 (split; [reflexivity|]).
  apply (search_formats_hits_in_order (sample_services (inr ()))
           sample_toFixed sample_env plain_search 0); [exact Haccepted|].
  reflexivity.
Defined.



(** ** Snippets *)

(** C1, as stated, fails: a hit whose content has three units comes back
    with the ellipsis appended, not unmodified. *)
Lemma short_content_is_not_returned_unmodified :
  let r := run (sample_services (inr ()))
             (searchWithFiltersTool sample_toFixed sample_env degenerate_search) 0 in
  query_answers (Run.trace r) = [[full_hit; bare_hit]] ∧
  QueryResult.document full_hit = Some "RAG" ∧
  String.length "RAG" ≤ 200 ∧
  ∃ p d,
    Run.outcome r = Returned (Ok p) ∧
    SearchPayload.results p !! 0 = Some d ∧
    Snippet.content d = "RAG..." ∧
    Snippet.content d ≠ "RAG".
Proof.
  repeat split; [simpl; lia|].
  eexists _, _. repeat split; done.
Qed.

(** C1, amended: the snippet of a hit is the first 200 units of its
    content followed by ["..."]: content longer than 200 units is cut to
    exactly 200 units before the marker, and content of 200 units or fewer
    (none at all counting as empty) is returned whole, also followed by the
    marker. *)
Theorem snippet_is_prefix_plus_ellipsis {W} (S : Services W)
    (toFixed : number → nat → string) (env : Env) (context : SearchContext.t)
    (w : W) (p : SearchPayload.t Snippet.t) (hits : list QueryResult.t)
    (i : nat) (hit : QueryResult.t) :
  Run.outcome (run S (searchWithFiltersTool toFixed env context) w) = Returned (Ok p) →
  query_answers (Run.trace (run S (searchWithFiltersTool toFixed env context) w))
    = [hits] →
  hits !! i = Some hit →
  let text := str_or (QueryResult.document hit) "" in
  ∃ d,
    SearchPayload.results p !! i = Some d ∧
    (200 < String.length text →
       ∃ head rest,
         text = head +:+ rest ∧ String.length head = 200 ∧
         Snippet.content d = head +:+ "..." ∧
         String.length (Snippet.content d) = 203) ∧
    (String.length text ≤ 200 → Snippet.content d = text +:+ "...").
Proof.
  intros Hp Hq Hi text.
  apply filters_body_inv in Hp as (emb & w1 & hits' & w2 & _ & _ & _ & Ht & ->).
  rewrite Ht in Hq. injection Hq as ->.
  exists (formatSnippet toFixed i hit). simpl.
  rewrite list_lookup_imap, Hi. fold text. repeat split.
  - intros Hlong.
    destruct (substring0_split 200 text) as (rest & Htext & Hlen); [lia|].
    exists (substring0 200 text), rest. repeat split; [done|done|].
    rewrite length_append, Hlen. done.
  - intros Hshort. by rewrite substring0_short.
Qed.

(** A long content: the snippet of the first sample document keeps 200 of
    its 363 units. *)
Example snippet_of_first_sample_document :
  let hit :=
    {| QueryResult.id := "doc-1";
       QueryResult.score := None;
       QueryResult.metadata := None;
       QueryResult.document := Doc.content <$> head sampleDocuments |} in
  String.length (default "" (QueryResult.document hit)) = 363 ∧
  Snippet.content (formatSnippet sample_toFixed 0 hit) =
    "Artificial Intelligence (AI) is a branch of computer science that aims to create systems capable of performing tasks that normally require human intelligence. This includes learning, reasoning, percep..." ∧
  String.length (Snippet.content (formatSnippet sample_toFixed 0 hit)) = 203.
Proof. vm_compute. done. Qed.

Lemma snippet_is_prefix_plus_ellipsis_witness :
  let r := run (sample_services (inr ()))
             (searchWithFiltersTool sample_toFixed sample_env degenerate_search) 0 in
  ∃ p,
    Run.outcome r = Returned (Ok p) ∧
    query_answers (Run.trace r) = [[full_hit; bare_hit]] ∧
    [full_hit; bare_hit] !! 0 = Some full_hit ∧
    let text := str_or (QueryResult.document full_hit) "" in
    ∃ d,
      SearchPayload.results p !! 0 = Some d ∧
      (200 < String.length text →
         ∃ head rest,
           text = head +:+ rest ∧ String.length head = 200 ∧
           Snippet.content d = head +:+ "..." ∧
           String.length (Snippet.content d) = 203) ∧
      (String.length text ≤ 200 → Snippet.content d = text +:+ "...").
Proof.
  eexists. split; [reflexivity|]. split; [reflexivity|]. split; [reflexivity|].
  apply (snippet_is_prefix_plus_ellipsis (sample_services (inr ()))
           sample_toFixed sample_env degenerate_search 0 _ [full_hit; bare_hit]);
    reflexivity.
Defined.

(** ** Arguments are not validated *)

(** C2, as stated, fails: with the credential configured, a search for the
    empty text with [topK = 0] is not rejected; both requests go out and
    the tool reports success. *)
Lemma degenerate_search_reaches_the_services :
  let r := run (sample_services (inr ()))
             (searchDocumentsTool sample_toFixed sample_env degenerate_search) 0 in
  SearchContext.query degenerate_search = "" ∧
  PrimFloat.leb (SearchContext.topK degenerate_search) 0 = true ∧
  calls (Run.trace r) =
    [Embed embedding_model "";
     VQuery "knowledge-base" [0.25; 0.5]%float 0%float] ∧
  success <$> result_of (Run.outcome r) = Some true.
Proof. repeat split. Qed.

Lemma search_run_cases {W} (S : Services W) toFixed env ctx w :
  str_not (env !! "OPENAI_API_KEY") = false →
  search_cases S ctx w (run S (searchDocumentsTool toFixed env ctx) w).
Proof.
  intros Hkey. unfold search_cases, searchDocumentsTool. rewrite Hkey. simpl.
  destruct (serve S w _) as [[e|emb] w1]; simpl;
    [destruct e; (split; [done|by intros p])|].
  destruct (serve S w1 _) as [[e|hits] w2]; simpl;
    [destruct e; (split; [done|by intros p])|eauto].
Qed.

Lemma filters_run_cases {W} (S : Services W) toFixed env ctx w :
  str_not (env !! "OPENAI_API_KEY") = false →
  search_cases S ctx w (run S (searchWithFiltersTool toFixed env ctx) w).
Proof.
  intros Hkey. unfold search_cases, searchWithFiltersTool. rewrite Hkey. simpl.
  destruct (serve S w _) as [[e|emb] w1]; simpl;
    [destruct e; (split; [done|by intros p])|].
  destruct (serve S w1 _) as [[e|hits] w2]; simpl;
    [destruct e; (split; [done|by intros p])|eauto].
Qed.

Lemma search_cases_forwarded {W A} (S : Services W) ctx w
    (r : Run.t W (ToolResult A)) :
  search_cases S ctx w r → forwarded_unchecked S ctx w r.
Proof.
  unfold search_cases, forwarded_unchecked.
  destruct (serve S w _) as [[e|emb] w1] eqn:H1.
  - intros [-> _]. split; [done|split; [|done]]. intros emb' w1' [=].
  - destruct (serve S w1 _) as [[e|hits] w2] eqn:H2.
    + intros [-> _]. split; [done|split; [|done]].
      by intros emb' w1' [= <- <-].
    + intros [-> [p Hp]]. split; [done|split].
      * by intros emb' w1' [= <- <-].
      * intros e He. congruence.
Qed.

(** C2, amended: with the credential configured, the search tools do not
    examine [topK] or the query text.  Whatever their values, the embedding
    request goes out with the text as given; if it resolves, the index is
    queried with the [topK] as given; and a failure result is returned only
    when one of the two requests was rejected. *)
Theorem search_arguments_are_forwarded_unchecked {W} (S : Services W)
    (toFixed : number → nat → string) (env : Env) (context : SearchContext.t)
    (w : W) :
  str_not (env !! "OPENAI_API_KEY") = false →
  forwarded_unchecked S context w
    (run S (searchDocumentsTool toFixed env context) w) ∧
  forwarded_unchecked S context w
    (run S (searchWithFiltersTool toFixed env context) w).
Proof.
  intros Hkey. split.
  - eapply search_cases_forwarded. by apply search_run_cases.
  - eapply search_cases_forwarded. by apply filters_run_cases.
Qed.

Lemma search_arguments_are_forwarded_unchecked_witness :
  forwarded_unchecked (sample_services (inr ())) degenerate_search 0
    (run (sample_services (inr ()))
       (searchDocumentsTool sample_toFixed sample_env degenerate_search) 0) ∧
  forwarded_unchecked (sample_services (inr ())) degenerate_search 0
    (run (sample_services (inr ()))
       (searchWithFiltersTool sample_toFixed sample_env degenerate_search) 0).
Proof.
  apply (search_arguments_are_forwarded_unchecked (sample_services (inr ()))
           sample_toFixed sample_env degenerate_search 0).
  reflexivity.
Defined.

(** ** Adding a document *)

Lemma newline_append (s : string) : newline +:+ s = String "010"%char s.
Proof. reflexivity. Qed.


(** C4: with the credential configured and both services answering,
    [addDocument] embeds the title, one line feed (character 10) and the
    content with [text-embedding-3-small], reads the clock, upserts
    one vector with one metadata object holding title, content, category,
    tags (none given: the empty list) and that timestamp, and returns the
    first id of the upsert's answer as [documentId]. *)
Theorem addDocument_upserts_one_record {W} (S : Services W) (env : Env)
    (context : AddContext.t) (w w1 w2 w3 : W) (embedding : list number)
    (timestamp : string) (ids : list string) :
  let title := AddContext.title context in
  let content := AddContext.content context in
  let category := AddContext.category context in
  let tags := default [] (AddContext.tags context) in
  let payload := document_metadata title content category tags timestamp in
  let embed :=
    Embed "text-embedding-3-small" (title +:+ String "010"%char content) in
  let upsert := VUpsert (AddContext.indexName context) [embedding] [payload] in
  str_not (env !! "OPENAI_API_KEY") = false →
  serve S w embed = (inr embedding, w1) →
  clock S w1 = (timestamp, w2) →
  serve S w2 upsert = (inr ids, w3) →
  run S (addDocumentTool env context) w =
    Run.mk
      (Returned (Ok {| AddPayload.message := "Document added successfully";
                       AddPayload.documentId := head ids;
                       AddPayload.title := title;
                       AddPayload.category := category |}))
      w3
      [EvCall embed (inr embedding); EvNow timestamp; EvCall upsert (inr ids)] ∧
  payload !! "title" = Some (JStr title) ∧
  payload !! "content" = Some (JStr content) ∧
  payload !! "category" = Some (JStr category) ∧
  payload !! "tags" = Some (JArr (JStr <$> tags)) ∧
  payload !! "timestamp" = Some (JStr timestamp) ∧
  dom payload = {["title"; "content"; "category"; "tags"; "timestamp"]} ∧
  String.length (title +:+ String "010"%char content)
    = String.length title + 1 + String.length content.
Proof.
  intros title content category tags payload embed upsert Hkey H1 H2 H3.
  split.
  - unfold addDocumentTool. rewrite Hkey. simpl.
    fold title content category. rewrite newline_append.
    unfold embedding_model. fold embed. rewrite H1. simpl.
    rewrite H2. simpl. fold tags. fold payload. fold upsert. rewrite H3. done.
  - do 5 (split; [vm_compute; reflexivity|]). split.
    + unfold payload, document_metadata. set_solver.
    + rewrite length_append. simpl. lia.
Qed.

Lemma addDocument_upserts_one_record_witness :
  let payload := document_metadata "X" "Y" "technology" [] sample_timestamp in
  let embed := Embed "text-embedding-3-small" (String "X" (String "010" "Y")) in
  let upsert := VUpsert "kb" [[0.25; 0.5]%float] [payload] in
  run (sample_services (inr ())) (addDocumentTool sample_env sample_add) 0 =
    Run.mk
      (Returned (Ok {| AddPayload.message := "Document added successfully";
                       AddPayload.documentId := Some "doc-3";
                       AddPayload.title := "X";
                       AddPayload.category := "technology" |}))
      2
      [EvCall embed (inr [0.25; 0.5]%float); EvNow sample_timestamp;
       EvCall upsert (inr ["doc-3"])] ∧
  payload !! "title" = Some (JStr "X") ∧
  payload !! "content" = Some (JStr "Y") ∧
  payload !! "category" = Some (JStr "technology") ∧
  payload !! "tags" = Some (JArr []) ∧
  payload !! "timestamp" = Some (JStr sample_timestamp) ∧
  dom payload = {["title"; "content"; "category"; "tags"; "timestamp"]} ∧
  String.length (String "X" (String "010" "Y")) = 3.
Proof.
  apply (addDocument_upserts_one_record (sample_services (inr ())) sample_env
           sample_add 0 1 1 2 [0.25; 0.5]%float sample_timestamp ["doc-3"]);
    reflexivity.
Defined.

(** ** Ingestion *)

Lemma prefix_spec (sub s : string) :
  String.prefix sub s = true ↔ ∃ behind, s = sub +:+ behind.
Proof.
  revert s. induction sub as [|a sub IH]; intros s.
  - destruct s; simpl; split; eauto.
  - destruct s as [|b s]; simpl.
    + split; [done|]. intros [behind H]. discriminate H.
    + destruct (ascii_dec a b) as [->|Hab].
      * rewrite IH. split; intros [behind H]; exists behind.
        -- change (String b s = String b (sub +:+ behind)). by rewrite <- H.
        -- by injection H.
      * split; [done|]. intros [behind H]. injection H as H1 H2. done.
Qed.

Lemma includes_spec (s sub : string) :
  includes s sub = true ↔ ∃ before behind, s = before +:+ sub +:+ behind.
Proof.
  induction s as [|a s IH].
  - change (includes "" sub) with (String.prefix sub "" || false).
    rewrite orb_false_r, prefix_spec. split.
    + intros [behind H]. by exists "", behind.
    + intros ([|b before] & behind & H); [by exists behind|discriminate H].
  - change (includes (String a s) sub)
      with (String.prefix sub (String a s) || includes s sub).
    rewrite orb_true_iff, prefix_spec, IH. split.
    + intros [[behind H] | (before & behind & H)].
      * by exists "", behind.
      * exists (String a before), behind.
        change (String a s = String a (before +:+ sub +:+ behind)).
        by rewrite <- H.
    + intros ([|b before] & behind & H).
      * left. by exists behind.
      * right. exists before, behind.
        change (String a s = String b (before +:+ sub +:+ behind)) in H.
        by injection H.
Qed.

Lemma already_exists_spec (error : Exn) :
  already_exists error = true ↔ mentions_already_exists error.
Proof.
  unfold already_exists, mentions_already_exists.
  destruct error as [| |e].
  - split; [done|]. by intros (e & ? & ? & ? & _).
  - split; [done|]. by intros (e & ? & ? & ? & _).
  - destruct (message e) as [m|] eqn:Hm.
    + rewrite includes_spec. split.
      * intros (before & behind & ->). by exists e, before, behind.
      * intros (e' & before & behind & [= <-] & H).
        rewrite Hm in H. injection H as ->. eauto.
    + split; [done|]. intros (e' & before & behind & [= <-] & H).
      by rewrite Hm in H.
Qed.

#[local] Arguments ingest_documents : simpl never.

(** C7: when [createIndex] is rejected during ingestion, an error whose
    message contains ['already exists'] is caught and the run goes on with
    the embedding and insertion steps, exactly as it does after a created
    index; any other error object ends the run at once with exit code 1,
    and no further request is made.  A rejection with [null] or [undefined]
    makes no further request either, but the outer handler's [error.message]
    throws, so the run ends in an uncaught [TypeError] and not in the exit. *)
Theorem createIndex_failure_policy {W} (S : Services W) (env : Env) (w w1 : W)
    (error : Exn) :
  let create := VCreateIndex "knowledge-base" 1536 "cosine" in
  str_not (env !! "AZURE_AI_SEARCH_ENDPOINT") = false →
  str_not (env !! "AZURE_AI_SEARCH_CREDENTIAL") = false →
  str_not (env !! "OPENAI_API_KEY") = false →
  serve S w create = (inl error, w1) →
  (mentions_already_exists error →
     run S (populateKnowledgeBase env) w =
       after [EvLog LogBanner; EvLog (LogCreatingIndex "knowledge-base");
              EvCall create (inl error); EvLog LogIndexExists]
         (run S (try_catch (ingest_documents "knowledge-base") on_fatal) w1)) ∧
  (¬ mentions_already_exists error →
     run S (populateKnowledgeBase env) w =
       match error with
       | ExnError e =>
           Run.mk (Exited 1) w1
             [EvLog LogBanner; EvLog (LogCreatingIndex "knowledge-base");
              EvCall create (inl error);
              EvLog (LogError (message e)); EvLog (LogErrorObject error)]
       | ExnNull =>
           Run.mk (Thrown (ExnError (cannot_read_message "null"))) w1
             [EvLog LogBanner; EvLog (LogCreatingIndex "knowledge-base");
              EvCall create (inl error)]
       | ExnUndefined =>
           Run.mk (Thrown (ExnError (cannot_read_message "undefined"))) w1
             [EvLog LogBanner; EvLog (LogCreatingIndex "knowledge-base");
              EvCall create (inl error)]
       end).
Proof.
  intros create Hendpoint Hcredential Hkey Hcreate.
  unfold populateKnowledgeBase. rewrite Hendpoint, Hcredential, Hkey. simpl.
  fold create. rewrite Hcreate. simpl.
  split; intros Hmsg.
  - apply already_exists_spec in Hmsg. rewrite Hmsg. simpl. done.
  - destruct (already_exists error) eqn:Hex.
    + by apply already_exists_spec in Hex.
    + simpl. by destruct error.
Qed.

(** For comparison: the same continuation runs after a created index. *)
Lemma createIndex_success_continues {W} (S : Services W) (env : Env) (w w1 : W) :
  let create := VCreateIndex "knowledge-base" 1536 "cosine" in
  str_not (env !! "AZURE_AI_SEARCH_ENDPOINT") = false →
  str_not (env !! "AZURE_AI_SEARCH_CREDENTIAL") = false →
  str_not (env !! "OPENAI_API_KEY") = false →
  serve S w create = (inr (), w1) →
  run S (populateKnowledgeBase env) w =
    after [EvLog LogBanner; EvLog (LogCreatingIndex "knowledge-base");
           EvCall create (inr ()); EvLog LogIndexCreated]
      (run S (try_catch (ingest_documents "knowledge-base") on_fatal) w1).
Proof.
  intros create Hendpoint Hcredential Hkey Hcreate.
  unfold populateKnowledgeBase. rewrite Hendpoint, Hcredential, Hkey. simpl.
  fold create. rewrite Hcreate. done.
Qed.

(** The continuation starts by embedding the first sample document. *)
Lemma ingest_documents_first_call {W} (S : Services W) (w : W) :
  head (calls (Run.trace
                 (run S (try_catch (ingest_documents "knowledge-base") on_fatal) w)))
  = Some (Embed "text-embedding-3-small"
            ("Introduction to Artificial Intelligence" +:+
             String "010"%char
               (default "" (Doc.content <$> head sampleDocuments)))).
Proof.
  unfold ingest_documents, sampleDocuments. simpl.
  destruct (serve S w _) as [r w']. done.
Qed.

Lemma createIndex_failure_policy_witness :
  let create := VCreateIndex "knowledge-base" 1536 "cosine" in
  let present :=
    ExnError (mkError (Some "Index 'knowledge-base' already exists")) in
  let denied := ExnError (mkError (Some "Forbidden")) in
  run (sample_services (inl present)) (populateKnowledgeBase sample_env) 0 =
    after [EvLog LogBanner; EvLog (LogCreatingIndex "knowledge-base");
           EvCall create (inl present); EvLog LogIndexExists]
      (run (sample_services (inl present))
         (try_catch (ingest_documents "knowledge-base") on_fatal) 1) ∧
  run (sample_services (inl denied)) (populateKnowledgeBase sample_env) 0 =
    Run.mk (Exited 1) 1
      [EvLog LogBanner; EvLog (LogCreatingIndex "knowledge-base");
       EvCall create (inl denied);
       EvLog (LogError (Some "Forbidden")); EvLog (LogErrorObject denied)] ∧
  run (sample_services (inl ExnUndefined)) (populateKnowledgeBase sample_env) 0 =
    Run.mk (Thrown (ExnError (cannot_read_message "undefined"))) 1
      [EvLog LogBanner; EvLog (LogCreatingIndex "knowledge-base");
       EvCall create (inl ExnUndefined)].
Proof.
  intros create present denied. split; [|split].
  - apply (createIndex_failure_policy (sample_services (inl present))
             sample_env 0 1 present); try reflexivity.
    exists (mkError (Some "Index 'knowledge-base' already exists")),
      "Index 'knowledge-base' ", "". split; reflexivity.
  - apply (createIndex_failure_policy (sample_services (inl denied))
             sample_env 0 1 denied); try reflexivity.
    intros H. apply already_exists_spec in H. discriminate H.
  - apply (createIndex_failure_policy (sample_services (inl ExnUndefined))
             sample_env 0 1 ExnUndefined); try reflexivity.
    intros H. apply already_exists_spec in H. discriminate H.
Defined.

(** The sample deployment, index already present: the run completes after
    one [createIndex], twelve embeddings, one upsert and one
    [describeIndex]. *)
Example ingestion_completes_on_existing_index :
  let r := run (sample_services
                  (inl (ExnError
                          (mkError (Some "Index 'knowledge-base' already exists")))))
             (populateKnowledgeBase sample_env) 0 in
  Run.outcome r = Returned () ∧
  length (calls (Run.trace r)) = 15 ∧
  length (List.filter is_embed (calls (Run.trace r))) = 12.
Proof. vm_compute. done. Qed.

(** ** The recall window *)

Lemma position_of_lookup (conversation : list Message.t) (p : nat) (m : Message.t) :
  NoDup (Message.id <$> conversation) →
  conversation !! p = Some m →
  position_of (Message.id m) conversation = Some p.
Proof.
  revert p. induction conversation as [|x rest IH]; intros p Hnd Hp; [done|].
  rewrite fmap_cons in Hnd. apply NoDup_cons in Hnd as [Hx Hnd].
  destruct p as [|p]; simpl in *.
  - injection Hp as ->. by rewrite String.eqb_refl.
  - destruct (String.eqb_spec (Message.id x) (Message.id m)) as [Heq|_].
    + exfalso. apply Hx. rewrite Heq.
      apply list_elem_of_fmap. exists m. split; [done|].
      by eapply list_elem_of_lookup_2.
    + by rewrite (IH p Hnd Hp).
Qed.

Lemma fetch_lookup (conversation : list Message.t) (m : Message.t) :
  NoDup (Message.id <$> conversation) →
  m ∈ conversation →
  fetch (Message.id m) conversation = Some m.
Proof.
  induction conversation as [|x rest IH]; intros Hnd Hm.
  - by apply elem_of_nil in Hm.
  - rewrite fmap_cons in Hnd. apply NoDup_cons in Hnd as [Hx Hnd]. simpl.
    apply elem_of_cons in Hm as [->|Hm].
    + by rewrite String.eqb_refl.
    + destruct (String.eqb_spec (Message.id x) (Message.id m)) as [Heq|_].
      * exfalso. apply Hx. rewrite Heq.
        apply list_elem_of_fmap. by exists m.
      * by apply IH.
Qed.

Lemma resolve_ids (conversation ms : list Message.t) :
  NoDup (Message.id <$> conversation) →
  ms ⊆ conversation →
  resolve conversation (Message.id <$> ms) = ms.
Proof.
  intros Hnd. unfold resolve.
  induction ms as [|m ms IH]; intros Hsub; [done|]. csimpl.
  rewrite (fetch_lookup conversation m), IH; [done| |done|].
  - intros x Hx. apply Hsub. by right.
  - apply Hsub. by left.
Qed.

Lemma dedupe_NoDup (seen : list string) (ms : list Message.t) :
  NoDup (Message.id <$> ms) →
  (∀ m, m ∈ ms → Message.id m ∉ seen) →
  dedupe seen ms = ms.
Proof.
  revert seen. induction ms as [|m ms IH]; intros seen Hnd Hseen; [done|].
  rewrite fmap_cons in Hnd. apply NoDup_cons in Hnd as [Hm Hnd]. simpl.
  rewrite bool_decide_eq_false_2 by (apply Hseen; by left).
  f_equal. apply IH; [done|].
  intros x Hx [Heq|Hin]%elem_of_cons.
  - apply Hm. rewrite <- Heq. apply list_elem_of_fmap. by exists x.
  - revert Hin. apply Hseen. by right.
Qed.

Lemma sort_by_time_chronological (ms : list Message.t) :
  chronological ms → sort_by_time ms = ms.
Proof.
  unfold chronological, sort_by_time.
  induction 1 as [|m ms Hms IH Hm]; [done|]. simpl. rewrite IH.
  destruct ms as [|m' ms]; [done|]. simpl.
  apply Forall_cons in Hm as [Hm _].
  by rewrite (proj2 (Nat.leb_le _ _) Hm).
Qed.

Lemma chronological_sublist (l k : list Message.t) :
  l `sublist_of` k → chronological k → chronological l.
Proof.
  unfold chronological. induction 1 as [|x l k Hlk IH|x l k Hlk IH]; intros Hk.
  - constructor.
  - apply StronglySorted_inv in Hk as [Hk Hx]. constructor; [by apply IH|].
    apply Forall_forall. intros y Hy.
    rewrite Forall_forall in Hx. apply Hx. by eapply elem_of_sublist.
  - apply StronglySorted_inv in Hk as [Hk _]. by apply IH.
Qed.

Lemma slice_sublist {A} (l : list A) (lo n : nat) :
  take n (drop lo l) `sublist_of` l.
Proof.
  etrans; [apply sublist_take|apply sublist_drop].
Qed.

Lemma elem_of_slice {A} (l : list A) (lo n : nat) (x : A) :
  x ∈ take n (drop lo l) ↔ ∃ q, l !! q = Some x ∧ lo ≤ q < lo + n.
Proof.
  rewrite elem_of_take. split.
  - intros (i & Hi & Hlt). rewrite lookup_drop in Hi.
    exists (lo + i). split; [done|lia].
  - intros (q & Hq & Hrange). exists (q - lo).
    rewrite lookup_drop. replace (lo + (q - lo)) with q by lia.
    split; [done|lia].
Qed.

(** C8: with the configured [messageRange] of 2 and one similarity hit, at
    position [p] of a conversation whose ids are distinct and which is in
    sequence order, the recall window is the run of messages at the existing
    positions from [p - 2] to [p + 2]: it holds exactly those messages, no
    id twice, in conversation order; and it is emitted next to the recency
    window of the last 20 messages. *)
Theorem recall_window_single_hit (conversation : list Message.t) (p : nat)
    (m : Message.t) :
  NoDup (Message.id <$> conversation) →
  chronological conversation →
  conversation !! p = Some m →
  let injected := buildContext memoryOptions conversation [Message.id m] in
  Injected.recalled injected = take (p + 2 + 1 - (p - 2)) (drop (p - 2) conversation) ∧
  (∀ q x, conversation !! q = Some x →
     x ∈ Injected.recalled injected ↔ p - 2 ≤ q ≤ p + 2) ∧
  NoDup (Message.id <$> Injected.recalled injected) ∧
  Injected.recalled injected `sublist_of` conversation ∧
  chronological (Injected.recalled injected) ∧
  Injected.recent injected = drop (length conversation - 20) conversation.
Proof.
  intros Hnd Hsorted Hp injected.
  set (window := take (p + 2 + 1 - (p - 2)) (drop (p - 2) conversation)).
  assert (window `sublist_of` conversation) as Hsub by apply slice_sublist.
  assert (NoDup (Message.id <$> window)) as Hnd'.
  { eapply sublist_NoDup; [done|]. by apply fmap_sublist. }
  assert (Injected.recalled injected = window) as Hrecalled.
  { unfold injected, buildContext, recallWindow. simpl.
    unfold neighbourhood. rewrite (position_of_lookup _ _ _ Hnd Hp). simpl.
    rewrite app_nil_r. fold window.
    rewrite resolve_ids; [|done|].
    - rewrite dedupe_NoDup; [|done|].
      + apply sort_by_time_chronological. by eapply chronological_sublist.
      + intros x _ Hx. by apply elem_of_nil in Hx.
    - intros x Hx. by eapply elem_of_sublist. }
  rewrite Hrecalled. split; [done|]. split.
  { intros q x Hq. unfold window. rewrite elem_of_slice. split.
    - intros (q' & Hq' & Hrange).
      assert (q = q') as <-.
      { eapply NoDup_lookup; [|done..]. by eapply NoDup_fmap_1. }
      lia.
    - intros [Hlo Hhi]. exists q. split; [done|lia]. }
  split; [done|]. split; [done|].
  split; [by eapply chronological_sublist|done].
Qed.

(** The spec's example: a hit at message 10 of a 12-message thread. *)
Example recall_window_of_message_10 :
  let injected := buildContext memoryOptions (sample_thread 1 12) ["m10"] in
  Message.id <$> Injected.recalled injected = ["m8"; "m9"; "m10"; "m11"; "m12"] ∧
  length (Injected.recent injected) = 12.
Proof. vm_compute. done. Qed.

Lemma recall_window_single_hit_witness :
  let conversation := sample_thread 1 12 in
  let injected := buildContext memoryOptions conversation ["m10"] in
  Injected.recalled injected = take (9 + 2 + 1 - (9 - 2)) (drop (9 - 2) conversation) ∧
  (∀ q x, conversation !! q = Some x →
     x ∈ Injected.recalled injected ↔ 9 - 2 ≤ q ≤ 9 + 2) ∧
  NoDup (Message.id <$> Injected.recalled injected) ∧
  Injected.recalled injected `sublist_of` conversation ∧
  chronological (Injected.recalled injected) ∧
  Injected.recent injected = drop (length conversation - 20) conversation.
Proof.
  apply (recall_window_single_hit (sample_thread 1 12) 9
           {| Message.id := "m10";
              Message.thread_id := "thread-1";
              Message.resource_id := "user-1";
              Message.content := "message 10";
              Message.created_at := 10 |}).
  - apply (bool_decide_unpack _). vm_compute. exact I.
  - apply (bool_decide_unpack _). vm_compute. exact I.
  - reflexivity.
Defined.

(** * Further properties *)

(** ** Failure paths of the tools *)

(** X1: when the embedding request is rejected, both search tools stop at
    once: the vector store is not queried.  Rejected with an error object,
    they return a failure whose error is the object's message, or the
    tool's own text when the message is missing or empty.  Rejected with
    [null] or [undefined], their handler fails to read [.message] and the
    tool throws that [TypeError]. *)
Theorem rejected_embedding_ends_the_search {W} (S : Services W)
    (toFixed : number → nat → string) (env : Env) (context : SearchContext.t)
    (w w1 : W) (error : Exn) :
  let embed := Embed "text-embedding-3-small" (SearchContext.query context) in
  str_not (env !! "OPENAI_API_KEY") = false →
  serve S w embed = (inl error, w1) →
  run S (searchDocumentsTool toFixed env context) w =
    Run.mk
      match error with
      | ExnError e =>
          Returned (Fail match message e with
                         | Some (String a m) => String a m
                         | _ => "Error while searching documents"
                         end)
      | ExnNull => Thrown (ExnError (cannot_read_message "null"))
      | ExnUndefined => Thrown (ExnError (cannot_read_message "undefined"))
      end
      w1 [EvCall embed (inl error)] ∧
  run S (searchWithFiltersTool toFixed env context) w =
    Run.mk
      match error with
      | ExnError e =>
          Returned (Fail match message e with
                         | Some (String a m) => String a m
                         | _ => "Error while searching"
                         end)
      | ExnNull => Thrown (ExnError (cannot_read_message "null"))
      | ExnUndefined => Thrown (ExnError (cannot_read_message "undefined"))
      end
      w1 [EvCall embed (inl error)].
Proof.
  intros embed Hkey Hembed.
  unfold searchDocumentsTool, searchWithFiltersTool. rewrite Hkey. simpl.
  unfold embedding_model. fold embed. rewrite Hembed.
  by destruct error as [| |[[[|a m]|]]].
Qed.

Lemma rejected_embedding_ends_the_search_witness :
  let embed := Embed "text-embedding-3-small" "" in
  (run (rejecting_services (reject_when is_embed (ExnError rate_limited)))
     (searchDocumentsTool sample_toFixed sample_env degenerate_search) 0 =
     Run.mk (Returned (Fail "rate limit exceeded")) 1
       [EvCall embed (inl (ExnError rate_limited))] ∧
   run (rejecting_services (reject_when is_embed (ExnError rate_limited)))
     (searchWithFiltersTool sample_toFixed sample_env degenerate_search) 0 =
     Run.mk (Returned (Fail "rate limit exceeded")) 1
       [EvCall embed (inl (ExnError rate_limited))]) ∧
  (run (rejecting_services (reject_when is_embed (ExnError silent_error)))
     (searchDocumentsTool sample_toFixed sample_env degenerate_search) 0 =
     Run.mk (Returned (Fail "Error while searching documents")) 1
       [EvCall embed (inl (ExnError silent_error))] ∧
   run (rejecting_services (reject_when is_embed (ExnError silent_error)))
     (searchWithFiltersTool sample_toFixed sample_env degenerate_search) 0 =
     Run.mk (Returned (Fail "Error while searching")) 1
       [EvCall embed (inl (ExnError silent_error))]) ∧
  (run (rejecting_services (reject_when is_embed ExnNull))
     (searchDocumentsTool sample_toFixed sample_env degenerate_search) 0 =
     Run.mk (Thrown (ExnError (cannot_read_message "null"))) 1
       [EvCall embed (inl ExnNull)] ∧
   run (rejecting_services (reject_when is_embed ExnNull))
     (searchWithFiltersTool sample_toFixed sample_env degenerate_search) 0 =
     Run.mk (Thrown (ExnError (cannot_read_message "null"))) 1
       [EvCall embed (inl ExnNull)]).
Proof.
  intros embed. split; [|split].
  - apply (rejected_embedding_ends_the_search
             (rejecting_services (reject_when is_embed (ExnError rate_limited)))
             sample_toFixed sample_env degenerate_search 0 1
             (ExnError rate_limited)); reflexivity.
  - apply (rejected_embedding_ends_the_search
             (rejecting_services (reject_when is_embed (ExnError silent_error)))
             sample_toFixed sample_env degenerate_search 0 1
             (ExnError silent_error)); reflexivity.
  - apply (rejected_embedding_ends_the_search
             (rejecting_services (reject_when is_embed ExnNull))
             sample_toFixed sample_env degenerate_search 0 1 ExnNull);
      reflexivity.
Defined.

(** X2: when the embedding resolves and the vector-store query is
    rejected, both search tools stop after these two requests.  Rejected
    with an error object, they return a failure carrying the object's
    message (their own text when it is missing or empty); rejected with
    [null] or [undefined], they throw the [TypeError] of the failed
    [.message] read. *)
Theorem rejected_query_fails_the_search {W} (S : Services W)
    (toFixed : number → nat → string) (env : Env) (context : SearchContext.t)
    (w w1 w2 : W) (embedding : list number) (error : Exn) :
  let embed := Embed "text-embedding-3-small" (SearchContext.query context) in
  let query :=
    VQuery (SearchContext.indexName context) embedding
      (SearchContext.topK context) in
  str_not (env !! "OPENAI_API_KEY") = false →
  serve S w embed = (inr embedding, w1) →
  serve S w1 query = (inl error, w2) →
  run S (searchDocumentsTool toFixed env context) w =
    Run.mk
      match error with
      | ExnError e =>
          Returned (Fail match message e with
                         | Some (String a m) => String a m
                         | _ => "Error while searching documents"
                         end)
      | ExnNull => Thrown (ExnError (cannot_read_message "null"))
      | ExnUndefined => Thrown (ExnError (cannot_read_message "undefined"))
      end
      w2 [EvCall embed (inr embedding); EvCall query (inl error)] ∧
  run S (searchWithFiltersTool toFixed env context) w =
    Run.mk
      match error with
      | ExnError e =>
          Returned (Fail match message e with
                         | Some (String a m) => String a m
                         | _ => "Error while searching"
                         end)
      | ExnNull => Thrown (ExnError (cannot_read_message "null"))
      | ExnUndefined => Thrown (ExnError (cannot_read_message "undefined"))
      end
      w2 [EvCall embed (inr embedding); EvCall query (inl error)].
Proof.
  intros embed query Hkey Hembed Hquery.
  unfold searchDocumentsTool, searchWithFiltersTool. rewrite Hkey. simpl.
  unfold embedding_model. fold embed. rewrite Hembed. simpl.
  fold query. rewrite Hquery.
  by destruct error as [| |[[[|a m]|]]].
Qed.

Lemma rejected_query_fails_the_search_witness :
  let embed := Embed "text-embedding-3-small" "" in
  let query := VQuery "knowledge-base" [0.25; 0.5]%float 0%float in
  (run (rejecting_services (reject_when is_query (ExnError silent_error)))
     (searchDocumentsTool sample_toFixed sample_env degenerate_search) 0 =
     Run.mk (Returned (Fail "Error while searching documents")) 2
       [EvCall embed (inr [0.25; 0.5]%float);
        EvCall query (inl (ExnError silent_error))] ∧
   run (rejecting_services (reject_when is_query (ExnError silent_error)))
     (searchWithFiltersTool sample_toFixed sample_env degenerate_search) 0 =
     Run.mk (Returned (Fail "Error while searching")) 2
       [EvCall embed (inr [0.25; 0.5]%float);
        EvCall query (inl (ExnError silent_error))]) ∧
  (run (rejecting_services (reject_when is_query ExnUndefined))
     (searchDocumentsTool sample_toFixed sample_env degenerate_search) 0 =
     Run.mk (Thrown (ExnError (cannot_read_message "undefined"))) 2
       [EvCall embed (inr [0.25; 0.5]%float); EvCall query (inl ExnUndefined)] ∧
   run (rejecting_services (reject_when is_query ExnUndefined))
     (searchWithFiltersTool sample_toFixed sample_env degenerate_search) 0 =
     Run.mk (Thrown (ExnError (cannot_read_message "undefined"))) 2
       [EvCall embed (inr [0.25; 0.5]%float); EvCall query (inl ExnUndefined)]).
Proof.
  intros embed query. split.
  - apply (rejected_query_fails_the_search
             (rejecting_services (reject_when is_query (ExnError silent_error)))
             sample_toFixed sample_env degenerate_search 0 1 2
             [0.25; 0.5]%float (ExnError silent_error)); reflexivity.
  - apply (rejected_query_fails_the_search
             (rejecting_services (reject_when is_query ExnUndefined))
             sample_toFixed sample_env degenerate_search 0 1 2
             [0.25; 0.5]%float ExnUndefined); reflexivity.
Defined.

(** X3: when the embedding request of [addDocument] is rejected, the tool
    writes nothing: the clock is not read and no upsert is issued.
    Rejected with an error object, it returns a failure with the object's
    message (['Error while adding document'] when that is missing or
    empty); rejected with [null] or [undefined], it throws the [TypeError]
    of the failed [.message] read. *)
Theorem rejected_embedding_adds_nothing {W} (S : Services W) (env : Env)
    (context : AddContext.t) (w w1 : W) (error : Exn) :
  let embed :=
    Embed "text-embedding-3-small"
      (AddContext.title context +:+
       String "010"%char (AddContext.content context)) in
  str_not (env !! "OPENAI_API_KEY") = false →
  serve S w embed = (inl error, w1) →
  run S (addDocumentTool env context) w =
    Run.mk
      match error with
      | ExnError e =>
          Returned (Fail match message e with
                         | Some (String a m) => String a m
                         | _ => "Error while adding document"
                         end)
      | ExnNull => Thrown (ExnError (cannot_read_message "null"))
      | ExnUndefined => Thrown (ExnError (cannot_read_message "undefined"))
      end
      w1 [EvCall embed (inl error)].
Proof.
  intros embed Hkey Hembed.
  unfold addDocumentTool. rewrite Hkey. simpl.
  rewrite newline_append. unfold embedding_model. fold embed. rewrite Hembed.
  by destruct error as [| |[[[|a m]|]]].
Qed.

Lemma rejected_embedding_adds_nothing_witness :
  let embed := Embed "text-embedding-3-small" (String "X" (String "010" "Y")) in
  run (rejecting_services (reject_when is_embed (ExnError rate_limited)))
      (addDocumentTool sample_env sample_add) 0 =
    Run.mk (Returned (Fail "rate limit exceeded")) 1
      [EvCall embed (inl (ExnError rate_limited))] ∧
  run (rejecting_services (reject_when is_embed ExnUndefined))
      (addDocumentTool sample_env sample_add) 0 =
    Run.mk (Thrown (ExnError (cannot_read_message "undefined"))) 1
      [EvCall embed (inl ExnUndefined)].
Proof.
  intros embed. split.
  - apply (rejected_embedding_adds_nothing
             (rejecting_services (reject_when is_embed (ExnError rate_limited)))
             sample_env sample_add 0 1 (ExnError rate_limited)); reflexivity.
  - apply (rejected_embedding_adds_nothing
             (rejecting_services (reject_when is_embed ExnUndefined))
             sample_env sample_add 0 1 ExnUndefined); reflexivity.
Defined.

(** X4: when the upsert of [addDocument] is rejected, the tool never
    reports a success, and the upsert was attempted once and is not
    repeated.  Rejected with an error object, the tool returns a failure
    with the object's message (['Error while adding document'] when that is
    missing or empty); rejected with [null] or [undefined], it throws the
    [TypeError] of the failed [.message] read. *)
Theorem rejected_upsert_is_reported {W} (S : Services W) (env : Env)
    (context : AddContext.t) (w w1 w2 w3 : W) (embedding : list number)
    (timestamp : string) (error : Exn) :
  let title := AddContext.title context in
  let content := AddContext.content context in
  let payload :=
    document_metadata title content (AddContext.category context)
      (default [] (AddContext.tags context)) timestamp in
  let embed :=
    Embed "text-embedding-3-small" (title +:+ String "010"%char content) in
  let upsert := VUpsert (AddContext.indexName context) [embedding] [payload] in
  str_not (env !! "OPENAI_API_KEY") = false →
  serve S w embed = (inr embedding, w1) →
  clock S w1 = (timestamp, w2) →
  serve S w2 upsert = (inl error, w3) →
  run S (addDocumentTool env context) w =
    Run.mk
      match error with
      | ExnError e =>
          Returned (Fail match message e with
                         | Some (String a m) => String a m
                         | _ => "Error while adding document"
                         end)
      | ExnNull => Thrown (ExnError (cannot_read_message "null"))
      | ExnUndefined => Thrown (ExnError (cannot_read_message "undefined"))
      end
      w3
      [EvCall embed (inr embedding); EvNow timestamp; EvCall upsert (inl error)].
Proof.
  intros title content payload embed upsert Hkey H1 H2 H3.
  unfold addDocumentTool. rewrite Hkey. simpl.
  fold title content. rewrite newline_append. unfold embedding_model.
  fold embed. rewrite H1. simpl.
  rewrite H2. simpl. fold payload. fold upsert. rewrite H3.
  by destruct error as [| |[[[|a m]|]]].
Qed.

Lemma rejected_upsert_is_reported_witness :
  let payload := document_metadata "X" "Y" "technology" [] sample_timestamp in
  let embed := Embed "text-embedding-3-small" (String "X" (String "010" "Y")) in
  let upsert := VUpsert "kb" [[0.25; 0.5]%float] [payload] in
  run (rejecting_services (reject_when is_upsert (ExnError rate_limited)))
      (addDocumentTool sample_env sample_add) 0 =
    Run.mk (Returned (Fail "rate limit exceeded")) 2
      [EvCall embed (inr [0.25; 0.5]%float); EvNow sample_timestamp;
       EvCall upsert (inl (ExnError rate_limited))] ∧
  run (rejecting_services (reject_when is_upsert ExnNull))
      (addDocumentTool sample_env sample_add) 0 =
    Run.mk (Thrown (ExnError (cannot_read_message "null"))) 2
      [EvCall embed (inr [0.25; 0.5]%float); EvNow sample_timestamp;
       EvCall upsert (inl ExnNull)].
Proof.
  intros payload embed upsert. split.
  - apply (rejected_upsert_is_reported
             (rejecting_services (reject_when is_upsert (ExnError rate_limited)))
             sample_env sample_add 0 1 1 2 [0.25; 0.5]%float sample_timestamp
             (ExnError rate_limited)); reflexivity.
  - apply (rejected_upsert_is_reported
             (rejecting_services (reject_when is_upsert ExnNull))
             sample_env sample_add 0 1 1 2 [0.25; 0.5]%float sample_timestamp
             ExnNull); reflexivity.
Defined.

(** X5: [addDocument] reports success only after its single upsert
    resolved: a success result means the trace is exactly the embedding,
    the clock reading and the resolved upsert of one vector, and
    [documentId] is the first id the upsert answered with.  Whatever
    happens, at most one upsert is issued. *)
Theorem addDocument_success_means_upserted {W} (S : Services W) (env : Env)
    (context : AddContext.t) (w : W) :
  let r := run S (addDocumentTool env context) w in
  let title := AddContext.title context in
  let content := AddContext.content context in
  length (List.filter is_upsert (calls (Run.trace r))) ≤ 1 ∧
  ∀ p, Run.outcome r = Returned (Ok p) →
    ∃ (embedding : list number) (timestamp : string) (ids : list string),
      Run.trace r =
        [EvCall (Embed "text-embedding-3-small"
                   (title +:+ String "010"%char content))
           (inr embedding);
         EvNow timestamp;
         EvCall (VUpsert (AddContext.indexName context) [embedding]
                   [document_metadata title content (AddContext.category context)
                      (default [] (AddContext.tags context)) timestamp])
           (inr ids)] ∧
      AddPayload.documentId p = head ids ∧
      AddPayload.title p = title ∧
      AddPayload.category p = AddContext.category context.
Proof.
  intros r title content. subst r. unfold addDocumentTool.
  destruct (str_not (env !! "OPENAI_API_KEY")); simpl; [split; [lia|done]|].
  destruct (serve S w _) as [[e|embedding] w1]; simpl;
    [destruct e as [| |[[[|a m]|]]]; (split; [simpl; lia|done])|].
  destruct (clock S w1) as [timestamp w2]; simpl.
  destruct (serve S w2 _) as [[e|ids] w3]; simpl;
    [destruct e as [| |[[[|a m]|]]]; (split; [simpl; lia|done])|].
  split; [lia|].
  intros p [= <-]. by exists embedding, timestamp, ids.
Qed.

(** ** The index tools *)

(** X6: [listIndexes] and [getIndexStats] issue exactly one request each
    and do not look at the embedding credential.  On success [count] is the
    number of names returned and the statistics are passed on unchanged.
    Rejected with an error object, they return a failure with the object's
    message, or their own text when that is missing or empty; rejected with
    [null] or [undefined], they throw the [TypeError] of the failed
    [.message] read. *)
Theorem index_tools_mirror_the_store {W} (S : Services W) (indexName : string)
    (w : W) :
  run S listIndexesTool w =
    (let '(r, w1) := serve S w VListIndexes in
     Run.mk
       match r with
       | inl (ExnError e) =>
           Returned (Fail match message e with
                          | Some (String a m) => String a m
                          | _ => "Error while listing indexes"
                          end)
       | inl ExnNull => Thrown (ExnError (cannot_read_message "null"))
       | inl ExnUndefined => Thrown (ExnError (cannot_read_message "undefined"))
       | inr indexes =>
           Returned (Ok {| ListPayload.count := length indexes;
                           ListPayload.indexes := indexes |})
       end
       w1 [EvCall VListIndexes r]) ∧
  run S (getIndexStatsTool indexName) w =
    (let '(r, w1) := serve S w (VDescribeIndex indexName) in
     Run.mk
       match r with
       | inl (ExnError e) =>
           Returned (Fail match message e with
                          | Some (String a m) => String a m
                          | _ => "Error while getting index statistics"
                          end)
       | inl ExnNull => Thrown (ExnError (cannot_read_message "null"))
       | inl ExnUndefined => Thrown (ExnError (cannot_read_message "undefined"))
       | inr stats =>
           Returned (Ok {| StatsPayload.indexName := indexName;
                           StatsPayload.documentCount := IndexStats.count stats;
                           StatsPayload.dimension := IndexStats.dimension stats;
                           StatsPayload.metric := IndexStats.metric stats |})
       end
       w1 [EvCall (VDescribeIndex indexName) r]).
Proof.
  unfold listIndexesTool, getIndexStatsTool. simpl. split.
  - by destruct (serve S w VListIndexes) as [[[| |[[[|a m]|]]]|indexes] w1].
  - by destruct (serve S w (VDescribeIndex indexName))
      as [[[| |[[[|a m]|]]]|stats] w1].
Qed.

(** ** Display records *)





Lemma imap_position {A B} (f : nat → A → B) (pos : B → nat) (l : list A) (k : nat) :
  (∀ i x, pos (f i x) = i + k) → pos <$> imap f l = seq k (length l).
Proof.
  intros Hpos. apply list_eq. intros i.
  rewrite list_lookup_fmap, list_lookup_imap.
  destruct (l !! i) as [x|] eqn:Hi; simpl.
  - rewrite Hpos. symmetry. apply lookup_seq. split; [lia|].
    by eapply lookup_lt_Some.
  - symmetry. apply lookup_seq_ge. by apply lookup_ge_None.
Qed.

(** X9: the two search tools differ only in how they render a hit.  Run
    on the same input against the same services they issue the same
    requests, leave the services in the same state and succeed or fail
    together; when they succeed they report the same count, the same
    scores, and positions 1, 2, ..., count. *)
Theorem search_tools_agree {W} (S : Services W)
    (toFixed : number → nat → string) (env : Env) (context : SearchContext.t)
    (w : W) :
  let docs := run S (searchDocumentsTool toFixed env context) w in
  let snippets := run S (searchWithFiltersTool toFixed env context) w in
  Run.trace docs = Run.trace snippets ∧
  Run.final docs = Run.final snippets ∧
  success <$> result_of (Run.outcome docs)
    = success <$> result_of (Run.outcome snippets) ∧
  ∀ p q,
    Run.outcome docs = Returned (Ok p) →
    Run.outcome snippets = Returned (Ok q) →
    SearchPayload.resultsCount p = SearchPayload.resultsCount q ∧
    Formatted.score <$> SearchPayload.results p
      = Snippet.score <$> SearchPayload.results q ∧
    Formatted.position <$> SearchPayload.results p
      = seq 1 (SearchPayload.resultsCount p) ∧
    Snippet.position <$> SearchPayload.results q
      = seq 1 (SearchPayload.resultsCount q).
Proof.
  intros docs snippets. subst docs snippets.
  unfold searchDocumentsTool, searchWithFiltersTool.
  destruct (str_not (env !! "OPENAI_API_KEY")); simpl; [done|].
  destruct (serve S w _) as [[e|embedding] w1]; simpl;
    [by destruct e as [| |[[[|a m]|]]]|].
  destruct (serve S w1 _) as [[e|hits] w2]; simpl;
    [by destruct e as [| |[[[|a m]|]]]|].
  simpl in hits.
  do 3 (split; [done|]). intros p q [= <-] [= <-]. simpl.
  split; [done|]. split; [|split].
  - apply list_eq. intros i.
    rewrite !list_lookup_fmap, !list_lookup_imap. by destruct (hits !! i).
  - apply imap_position. intros; simpl; lia.
  - apply imap_position. intros; simpl; lia.
Qed.

(** ** The ingestion run *)

(** X10: the ingestion script checks its configuration first.  If the
    search endpoint, the search credential or the embedding key is unset or
    empty, it prints one message and exits with code 1 without issuing any
    request. *)
Theorem ingestion_needs_its_configuration {W} (S : Services W) (env : Env)
    (w : W) :
  str_not (env !! "AZURE_AI_SEARCH_ENDPOINT") = true ∨
  str_not (env !! "AZURE_AI_SEARCH_CREDENTIAL") = true ∨
  str_not (env !! "OPENAI_API_KEY") = true →
  ∃ line,
    run S (populateKnowledgeBase env) w =
      Run.mk (Exited 1) w [EvLog LogBanner; EvLog line] ∧
    line =
      (if str_not (env !! "AZURE_AI_SEARCH_ENDPOINT")
          || str_not (env !! "AZURE_AI_SEARCH_CREDENTIAL")
       then LogMissingSearchConfig else LogMissingOpenAIKey).
Proof.
  intros Hmissing. unfold populateKnowledgeBase.
  destruct (str_not (env !! "AZURE_AI_SEARCH_ENDPOINT")) eqn:H1;
    destruct (str_not (env !! "AZURE_AI_SEARCH_CREDENTIAL")) eqn:H2;
    destruct (str_not (env !! "OPENAI_API_KEY")) eqn:H3;
    simpl; eauto.
  destruct Hmissing as [?|[?|?]]; done.
Qed.

Lemma ingestion_needs_its_configuration_witness :
  let env : Env := <["OPENAI_API_KEY" := ""]> sample_env in
  ∃ line,
    run (sample_services (inr ())) (populateKnowledgeBase env) 0 =
      Run.mk (Exited 1) 0 [EvLog LogBanner; EvLog line] ∧
    line =
      (if str_not (env !! "AZURE_AI_SEARCH_ENDPOINT")
          || str_not (env !! "AZURE_AI_SEARCH_CREDENTIAL")
       then LogMissingSearchConfig else LogMissingOpenAIKey).
Proof.
  intros env.
  apply (ingestion_needs_its_configuration (sample_services (inr ())) env 0).
  right. right. reflexivity.
Defined.

Lemma ingest_documents_unfold (indexName : string) :
  ingest_documents indexName =
    (log (LogGenerating (length sampleDocuments));;
     embeddings ← embed_documents (length sampleDocuments) 0 sampleDocuments [];
     insert_and_report indexName embeddings).
Proof. reflexivity. Qed.

Lemma shape_embed_documents ok (P : Svc → Prop) (docs : list Doc.t) (n i : nat)
    (acc : list (list number)) :
  (∀ doc, P (embed_request doc)) →
  shape ok P (λ embeddings, length embeddings = length acc + length docs)
    ok (λ _, False) (embed_documents n i docs acc).
Proof.
  intros HP. revert i acc.
  induction docs as [|doc rest IH]; intros i acc; simpl.
  - constructor. lia.
  - constructor. constructor; [apply HP|].
    intros [e|embedding] He; simpl in *; [by constructor|].
    constructor.
    eapply shape_weaken; [..|apply (IH (S i) (acc ++ [embedding]))]; try done.
    intros embeddings ->. rewrite length_app. simpl. lia.
Qed.

Lemma shape_stamp_documents ok (P : Svc → Prop) (docs : list Doc.t) :
  shape ok P (metadata_of docs) (λ _, False) (λ _, False) (stamp_documents docs).
Proof.
  induction docs as [|doc rest IH]; simpl.
  - constructor. constructor.
  - constructor. intros timestamp.
    change (shape ok P (metadata_of (doc :: rest)) (λ _, False) (λ _, False)
              (stamp_documents rest ≫= λ metadata,
                 Ret (document_metadata (Doc.title doc) (Doc.content doc)
                        (Doc.category doc) (Doc.tags doc) timestamp :: metadata))).
    eapply shape_bind; [apply IH|].
    intros metadata Hm. constructor. constructor; [by exists timestamp|done].
Qed.

Lemma shape_log_categories ok (P : Svc → Prop) (entries : list (string * nat)) :
  shape ok P (λ _, True) (λ _, False) (λ _, False) (log_categories entries).
Proof.
  induction entries as [|[category count] rest IH]; simpl.
  - by constructor.
  - by constructor.
Qed.

Lemma shape_insert_and_report_with ok (P : Svc → Prop) (indexName : string)
    (embeddings : list (list number)) :
  (∀ metadata, metadata_of sampleDocuments metadata →
               P (VUpsert indexName embeddings metadata)) →
  P (VDescribeIndex indexName) →
  shape ok P (λ _, True) ok (λ _, False)
    (insert_and_report indexName embeddings).
Proof.
  intros Hupsert Hdescribe. unfold insert_and_report.
  do 2 (eapply shape_bind; [apply shape_log_unit|intros _ _]).
  eapply (shape_bind _ _ _ (metadata_of sampleDocuments)).
  { by eapply shape_weaken; [..|apply (shape_stamp_documents ok P)]. }
  intros metadata Hm.
  eapply shape_bind; [apply shape_await; auto|intros _ _].
  do 2 (eapply shape_bind; [apply shape_log_unit|intros _ _]).
  eapply shape_bind; [apply shape_sleep_unit|intros _ _].
  eapply shape_bind;
    [by apply (shape_await _ _ _ _ (VDescribeIndex indexName))
    |intros stats _].
  do 2 (eapply shape_bind; [apply shape_log_unit|intros _ _]).
  eapply (shape_bind _ _ _ (λ _, True)).
  { by eapply shape_weaken; [..|apply (shape_log_categories ok P)]. }
  intros _ _.
  eapply shape_bind; [apply shape_log_unit|intros _ _].
  apply shape_log_unit.
Qed.

Lemma shape_insert_and_report ok (embeddings : list (list number)) :
  length embeddings = length sampleDocuments →
  shape ok aligned_upsert (λ _, True) ok (λ _, False)
    (insert_and_report "knowledge-base" embeddings).
Proof.
  intros Hlen. apply shape_insert_and_report_with; [|done].
  intros metadata Hm. by repeat split.
Qed.

Lemma shape_ingest_documents ok :
  shape ok aligned_upsert (λ _, True) ok (λ _, False)
    (ingest_documents "knowledge-base").
Proof.
  rewrite ingest_documents_unfold.
  eapply shape_bind; [apply shape_log_unit|intros _ _].
  eapply shape_bind.
  { apply (shape_embed_documents ok aligned_upsert sampleDocuments _ 0 []).
    by intros doc. }
  intros embeddings Hlen. by apply shape_insert_and_report.
Qed.

Lemma shape_create_index ok (P : Svc → Prop) (indexName : string) :
  P (VCreateIndex indexName 1536 "cosine") →
  shape ok P (λ _, True) ok (λ _, False) (create_index indexName).
Proof.
  intros HP. unfold create_index.
  eapply (shape_try_catch _ _ _ _ ok).
  - eapply shape_bind; [by apply shape_await|intros _ _].
    apply shape_log_unit.
  - intros e He. destruct (already_exists e); [apply shape_log_unit|].
    by constructor.
Qed.

(** The outer handler exits with code 1 after an error object, and throws
    when it is given [null] or [undefined]. *)
Lemma shape_on_fatal ok (P : Svc → Prop) (error : Exn) :
  ok error →
  shape ok P (λ _, True)
    (λ thrown, is_message_read_error thrown ∧ ∃ e, ok e ∧ ¬ is_object e)
    (λ code, code = 1%Z) (on_fatal error).
Proof.
  intros He. destruct error as [| |e]; simpl.
  - constructor. split; [by left|]. exists ExnNull. split; [done|]. by intros [].
  - constructor. split; [by right|].
    exists ExnUndefined. split; [done|]. by intros [].
  - by repeat constructor.
Qed.

Lemma shape_populateKnowledgeBase ok (env : Env) :
  shape ok aligned_upsert (λ _, True)
    (λ thrown, is_message_read_error thrown ∧ ∃ e, ok e ∧ ¬ is_object e)
    (λ code, code = 1%Z)
    (populateKnowledgeBase env).
Proof.
  unfold populateKnowledgeBase.
  eapply shape_bind; [apply shape_log_unit|intros _ _].
  destruct (_ || _).
  { eapply shape_bind; [apply shape_log_unit|intros _ _]. by constructor. }
  destruct (str_not _).
  { eapply shape_bind; [apply shape_log_unit|intros _ _]. by constructor. }
  assert (shape ok aligned_upsert (λ _, True) ok (λ _, False)
            (log (LogCreatingIndex "knowledge-base");;
             create_index "knowledge-base";;
             ingest_documents "knowledge-base")) as Hbody.
  { eapply shape_bind; [apply shape_log_unit|intros _ _].
    eapply shape_bind; [by apply shape_create_index|intros _ _].
    apply shape_ingest_documents. }
  eapply (shape_try_catch _ _ _ _ ok).
  - eapply shape_weaken; [..|exact Hbody]; done.
  - intros e He. by apply shape_on_fatal.
Qed.

Lemma sample_services_reject_with_objects :
  rejects_within is_object (sample_services (inr ())).
Proof. intros w c. by destruct c. Qed.

(** X11: a run of the ingestion script ends in one of three ways: it
    completes, it ends in [process.exit] with code 1, or the outer handler
    itself throws the [TypeError] of reading [.message] from [null] or
    [undefined].  When the services reject with error objects only, the
    third way is closed: the run completes or exits with code 1, and no
    error is left uncaught. *)
Theorem ingestion_completes_or_exits_with_1 {W} (S : Services W) (env : Env)
    (w : W) :
  (Run.outcome (run S (populateKnowledgeBase env) w) = Returned () ∨
   Run.outcome (run S (populateKnowledgeBase env) w) = Exited 1 ∨
   Run.outcome (run S (populateKnowledgeBase env) w)
     = Thrown (ExnError (cannot_read_message "null")) ∨
   Run.outcome (run S (populateKnowledgeBase env) w)
     = Thrown (ExnError (cannot_read_message "undefined"))) ∧
  (rejects_within is_object S →
   Run.outcome (run S (populateKnowledgeBase env) w) = Returned () ∨
   Run.outcome (run S (populateKnowledgeBase env) w) = Exited 1).
Proof.
  split.
  - destruct (shape_sound S _ _ _ _ _ _ (rejects_within_any S)
                (shape_populateKnowledgeBase any_exn env) w) as [_ Hout].
    destruct (Run.outcome (run S (populateKnowledgeBase env) w))
      as [[]|e|code]; simpl in Hout.
    + by left.
    + destruct Hout as [[->| ->] _]; auto.
    + right. left. by subst.
  - intros HS.
    destruct (shape_sound S _ _ _ _ _ _ HS
                (shape_populateKnowledgeBase is_object env) w) as [_ Hout].
    destruct (Run.outcome (run S (populateKnowledgeBase env) w))
      as [[]|e|code]; simpl in Hout.
    + by left.
    + by destruct Hout as (_ & e' & He' & Hne).
    + right. by subst.
Qed.

Lemma ingestion_completes_or_exits_with_1_witness :
  rejects_within is_object (sample_services (inr ())) ∧
  (Run.outcome (run (sample_services (inr ()))
                  (populateKnowledgeBase sample_env) 0) = Returned () ∨
   Run.outcome (run (sample_services (inr ()))
                  (populateKnowledgeBase sample_env) 0) = Exited 1).
Proof.
  split; [exact sample_services_reject_with_objects|].
  exact (proj2 (ingestion_completes_or_exits_with_1 (sample_services (inr ()))
                  sample_env 0) sample_services_reject_with_objects).
Defined.

(** X12: every upsert the ingestion script issues is complete and aligned:
    it goes to ['knowledge-base'] and carries one vector per sample document
    together with one metadata object per sample document, in the order of
    the documents, each made of that document's title, content, category
    and tags.  No partial batch is ever written. *)
Theorem ingestion_upserts_whole_aligned_batches {W} (S : Services W)
    (env : Env) (w : W) (indexName : string) (vectors : list (list number))
    (metadata : list Metadata) :
  VUpsert indexName vectors metadata
    ∈ calls (Run.trace (run S (populateKnowledgeBase env) w)) →
  indexName = "knowledge-base" ∧
  length vectors = 12 ∧
  length metadata = 12 ∧
  ∀ i doc, sampleDocuments !! i = Some doc →
    ∃ timestamp,
      metadata !! i =
        Some (document_metadata (Doc.title doc) (Doc.content doc)
                (Doc.category doc) (Doc.tags doc) timestamp).
Proof.
  intros Hin.
  destruct (shape_sound S _ _ _ _ _ _ (rejects_within_any S)
              (shape_populateKnowledgeBase any_exn env) w) as [Hcalls _].
  rewrite Forall_forall in Hcalls. apply Hcalls in Hin.
  destruct Hin as (-> & Hlen & Hmeta). split; [done|]. split; [done|].
  split.
  - apply Forall2_length in Hmeta. by rewrite <- Hmeta.
  - intros i doc Hi.
    destruct (Forall2_lookup_l _ _ _ _ _ Hmeta Hi) as (m & Hm & ts & ->).
    by exists ts.
Qed.

Lemma ingestion_upserts_whole_aligned_batches_witness :
  VUpsert "knowledge-base" sample_vectors sample_metadata
    ∈ calls (Run.trace (run (sample_services (inr ()))
                          (populateKnowledgeBase sample_env) 0)) ∧
  "knowledge-base" = "knowledge-base" ∧
  length sample_vectors = 12 ∧
  length sample_metadata = 12 ∧
  ∀ i doc, sampleDocuments !! i = Some doc →
    ∃ timestamp,
      sample_metadata !! i =
        Some (document_metadata (Doc.title doc) (Doc.content doc)
                (Doc.category doc) (Doc.tags doc) timestamp).
Proof.
  assert (VUpsert "knowledge-base" sample_vectors sample_metadata
            ∈ calls (Run.trace (run (sample_services (inr ()))
                                  (populateKnowledgeBase sample_env) 0)))
    as Hin.
  { apply (list_elem_of_lookup_2 _ 13). vm_compute. reflexivity. }
  split; [exact Hin|].
  exact (ingestion_upserts_whole_aligned_batches (sample_services (inr ()))
           sample_env 0 "knowledge-base" sample_vectors sample_metadata Hin).
Defined.

Lemma calls_app (t1 t2 : list Event) : calls (t1 ++ t2) = calls t1 ++ calls t2.
Proof. unfold calls. apply omap_app. Qed.

Lemma run_log_bind {W A} (S : Services W) (l : LogLine) (f : unit → Prog A)
    (w : W) :
  run S (log l ≫= f) w = emit (EvLog l) (run S (f ()) w).
Proof. reflexivity. Qed.

Lemma run_sleep_bind {W A} (S : Services W) (ms : nat) (f : unit → Prog A)
    (w : W) :
  run S (sleep ms ≫= f) w = emit (EvSleep ms) (run S (f ()) w).
Proof. reflexivity. Qed.

Lemma run_await_bind {W A} (S : Services W) (c : Svc) (f : Resp c → Prog A)
    (w w1 : W) (v : Resp c) :
  serve S w c = (inr v, w1) →
  run S (await c ≫= f) w = emit (EvCall c (inr v)) (run S (f v) w1).
Proof.
  intros Hc. unfold await, mbind, prog_bind. simpl. by rewrite Hc.
Qed.

Lemma run_await_bind_rejected {W A} (S : Services W) (c : Svc)
    (f : Resp c → Prog A) (w w1 : W) (e : Exn) :
  serve S w c = (inl e, w1) →
  run S (await c ≫= f) w = Run.mk (Thrown e) w1 [EvCall c (inl e)].
Proof.
  intros Hc. unfold await, mbind, prog_bind. simpl. by rewrite Hc.
Qed.

Lemma calls_emit_log {W A} (l : LogLine) (r : Run.t W A) :
  calls (Run.trace (emit (EvLog l) r)) = calls (Run.trace r).
Proof. reflexivity. Qed.

Lemma calls_emit_sleep {W A} (ms : nat) (r : Run.t W A) :
  calls (Run.trace (emit (EvSleep ms) r)) = calls (Run.trace r).
Proof. reflexivity. Qed.

Lemma calls_emit_call {W A} (c : Svc) (a : Answer c) (r : Run.t W A) :
  calls (Run.trace (emit (EvCall c a) r)) = c :: calls (Run.trace r).
Proof. reflexivity. Qed.

Lemma no_calls {W A} (S : Services W) (p : Prog A) (Q : A → Prop)
    (T : Exn → Prop) (X : Z → Prop) (w : W) :
  shape any_exn (λ _, False) Q T X p → calls (Run.trace (run S p w)) = [].
Proof.
  intros Hp.
  destruct (shape_sound S _ _ _ _ _ _ (rejects_within_any S) Hp w) as [Hcalls _].
  by destruct Hcalls.
Qed.

Lemma stamp_documents_returns {W} (S : Services W) (docs : list Doc.t) (w : W) :
  ∃ metadata,
    Run.outcome (run S (stamp_documents docs) w) = Returned metadata ∧
    metadata_of docs metadata.
Proof.
  destruct (shape_sound S _ _ _ _ _ _ (rejects_within_any S)
              (shape_stamp_documents any_exn (λ _, True) docs) w) as [_ Hout].
  destruct (Run.outcome (run S (stamp_documents docs) w)) as [metadata|e|code];
    simpl in Hout; [by exists metadata|done|done].
Qed.

Lemma calls_on_fatal {W} (S : Services W) (error : Exn) (w : W) :
  calls (Run.trace (run S (on_fatal error) w)) = [].
Proof. by destruct error. Qed.

Lemma calls_try_catch_on_fatal {W} (S : Services W) (p : Prog unit) (w : W) :
  calls (Run.trace (run S (try_catch p on_fatal) w))
    = calls (Run.trace (run S p w)).
Proof.
  rewrite run_try_catch.
  destruct (run S p w) as [[[]|e|code] w1 t];
    cbn [Run.outcome Run.final Run.trace]; try done.
  unfold after. cbn [Run.trace]. by rewrite calls_app, calls_on_fatal, app_nil_r.
Qed.

(** The loop of step 2 asks for the embeddings in document order and stops
    at the first rejection. *)
Lemma embed_documents_calls {W} (S : Services W) (docs : list Doc.t)
    (n i : nat) (acc : list (list number)) (w : W) :
  calls (Run.trace (run S (embed_documents n i docs acc) w))
    `prefix_of` (embed_request <$> docs) ∧
  (∀ embeddings,
     Run.outcome (run S (embed_documents n i docs acc) w) = Returned embeddings →
     calls (Run.trace (run S (embed_documents n i docs acc) w))
       = embed_request <$> docs) ∧
  (∀ code,
     Run.outcome (run S (embed_documents n i docs acc) w) ≠ Exited code).
Proof.
  revert i acc w. induction docs as [|doc rest IH]; intros i acc w.
  - simpl. split; [done|]. split; [done|]. by intros code.
  - simpl. fold (embed_request doc).
    destruct (serve S w (embed_request doc)) as [[e|embedding] w1]; simpl.
    + split; [|split; [done|by intros code]].
      apply prefix_cons, prefix_nil.
    + destruct (IH (i + 1) (acc ++ [embedding]) w1) as (Hpre & Hall & Hexit).
      replace (i + 1) with (Datatypes.S i) in * by lia.
      split; [by apply prefix_cons|]. split; [|exact Hexit].
      intros embeddings Hout. f_equal. by eapply Hall.
Qed.

(** Steps 3 to 6 issue the upsert and then [describeIndex], and nothing
    else. *)
Lemma insert_and_report_calls {W} (S : Services W) (indexName : string)
    (embeddings : list (list number)) (w : W) :
  ∃ metadata,
    calls (Run.trace (run S (insert_and_report indexName embeddings) w))
      `prefix_of` [VUpsert indexName embeddings metadata;
                   VDescribeIndex indexName].
Proof.
  unfold insert_and_report.
  rewrite !run_log_bind, !calls_emit_log, run_bind.
  destruct (stamp_documents_returns S sampleDocuments w)
    as (metadata & Hstamp & _).
  pose proof (no_calls S (stamp_documents sampleDocuments) _ _ _ w
                (shape_stamp_documents any_exn (λ _, False) sampleDocuments))
    as Hnone.
  destruct (run S (stamp_documents sampleDocuments) w) as [oS wS tS].
  cbn [Run.outcome Run.final Run.trace] in *. subst oS.
  exists metadata. unfold after at 1. cbn [Run.trace].
  rewrite calls_app, Hnone, app_nil_l.
  destruct (serve S wS (VUpsert indexName embeddings metadata))
    as [[e|ids] w1] eqn:Hupsert.
  { rewrite (run_await_bind_rejected S _ _ wS w1 e Hupsert).
    apply prefix_cons, prefix_nil. }
  rewrite (run_await_bind S _ _ wS w1 ids Hupsert), calls_emit_call.
  apply prefix_cons.
  rewrite !run_log_bind, !calls_emit_log, run_sleep_bind, calls_emit_sleep.
  destruct (serve S w1 (VDescribeIndex indexName)) as [[e|stats] w2] eqn:Hdescribe.
  { by rewrite (run_await_bind_rejected S _ _ w1 w2 e Hdescribe). }
  rewrite (run_await_bind S _ _ w1 w2 stats Hdescribe), calls_emit_call.
  apply prefix_cons.
  rewrite !run_log_bind, !calls_emit_log.
  rewrite (no_calls S _ (λ _, True) (λ _, False) (λ _, False)); [done|].
  eapply (shape_bind _ _ _ (λ _, True)); [apply shape_log_categories|].
  intros _ _.
  eapply shape_bind; [apply shape_log_unit|intros _ _].
  apply shape_log_unit.
Qed.

Lemma ingest_documents_calls {W} (S : Services W) (w : W) :
  ∃ embeddings metadata,
    calls (Run.trace
             (run S (try_catch (ingest_documents "knowledge-base") on_fatal) w))
      `prefix_of`
        (embed_request <$> sampleDocuments) ++
        [VUpsert "knowledge-base" embeddings metadata;
         VDescribeIndex "knowledge-base"].
Proof.
  rewrite calls_try_catch_on_fatal, ingest_documents_unfold, run_log_bind,
    calls_emit_log, run_bind.
  destruct (embed_documents_calls S sampleDocuments (length sampleDocuments)
              0 [] w) as (Hpre & Hall & _).
  destruct (run S (embed_documents (length sampleDocuments) 0 sampleDocuments [])
              w) as [oL wL tL].
  cbn [Run.outcome Run.final Run.trace] in Hpre, Hall |- *.
  destruct oL as [embeddings|e|code]; cbn [Run.trace].
  - destruct (insert_and_report_calls S "knowledge-base" embeddings wL)
      as (metadata & Hrest).
    exists embeddings, metadata.
    unfold after. cbn [Run.trace].
    rewrite calls_app, (Hall embeddings eq_refl).
    by apply prefix_app.
  - exists [], []. by apply prefix_app_r.
  - exists [], []. by apply prefix_app_r.
Qed.

Lemma upsert_position (before behind front back : list Svc) (c u : Svc) :
  before ++ c :: behind = front ++ u :: back →
  is_upsert c = true →
  Forall (λ x, is_upsert x = false) front →
  Forall (λ x, is_upsert x = false) back →
  before = front ∧ c = u.
Proof.
  revert front.
  induction before as [|b before IH]; intros [|a front] Heq Hc Hfront Hback;
    simpl in Heq.
  - by injection Heq.
  - injection Heq as -> _. apply Forall_cons in Hfront as [Ha _]. congruence.
  - injection Heq as _ Hrest. exfalso. clear IH.
    rewrite Forall_forall in Hback.
    assert (c ∈ back) as Hin by (rewrite <- Hrest; set_solver).
    apply Hback in Hin. congruence.
  - injection Heq as -> Hrest. apply Forall_cons in Hfront as [_ Hfront].
    destruct (IH front Hrest Hc Hfront Hback) as [H1 H2]. by rewrite H1, H2.
Qed.

(** X13: the requests of an ingestion run follow one fixed order:
    [createIndex], then the embedding of each sample document in document
    order, then the upsert, then [describeIndex]; a run that stops early
    has issued an initial part of this sequence.  So whenever an upsert is
    issued, the [createIndex] and all twelve embedding requests were issued
    before it, in this order, and nothing else was. *)
Theorem ingestion_embeds_in_document_order {W} (S : Services W) (env : Env)
    (w : W) :
  let cs := calls (Run.trace (run S (populateKnowledgeBase env) w)) in
  let create := VCreateIndex "knowledge-base" 1536 "cosine" in
  let embeds :=
    (λ doc, Embed "text-embedding-3-small"
              (Doc.title doc +:+ String "010"%char (Doc.content doc)))
      <$> sampleDocuments in
  ∃ embeddings metadata,
    cs `prefix_of`
      create :: embeds ++ [VUpsert "knowledge-base" embeddings metadata;
                           VDescribeIndex "knowledge-base"] ∧
    ∀ before c behind,
      cs = before ++ c :: behind → is_upsert c = true →
      before = create :: embeds ∧
      c = VUpsert "knowledge-base" embeddings metadata.
Proof.
  intros cs create embeds.
  assert (∃ embeddings metadata,
            cs `prefix_of`
              create :: embeds ++ [VUpsert "knowledge-base" embeddings metadata;
                                   VDescribeIndex "knowledge-base"])
    as (embeddings & metadata & Hpre).
  { subst cs. unfold populateKnowledgeBase.
    destruct (_ || _); simpl; [exists [], []; apply prefix_nil|].
    destruct (str_not _); simpl; [exists [], []; apply prefix_nil|].
    fold create.
    destruct (serve S w create) as [[e|[]] w1]; simpl.
    - destruct (already_exists e); simpl.
      + destruct (ingest_documents_calls S w1) as (embeddings & metadata & H).
        exists embeddings, metadata. by apply prefix_cons.
      + exists [], []. rewrite calls_on_fatal. apply prefix_cons, prefix_nil.
    - destruct (ingest_documents_calls S w1) as (embeddings & metadata & H).
      exists embeddings, metadata. by apply prefix_cons. }
  exists embeddings, metadata. split; [exact Hpre|].
  intros before c behind Hcs Hc.
  destruct Hpre as [rest Hrest]. rewrite Hcs in Hrest.
  apply (upsert_position before (behind ++ rest) (create :: embeds)
           [VDescribeIndex "knowledge-base"] c
           (VUpsert "knowledge-base" embeddings metadata)); [|done| |].
  - transitivity ((before ++ c :: behind) ++ rest);
      [by rewrite <- app_assoc|by rewrite <- Hrest].
  - constructor; [done|]. subst embeds. apply Forall_fmap, Forall_forall.
    by intros doc _.
  - by repeat constructor.
Qed.

(** ** The category summary *)

Lemma lookup_count_count_category (c category : string)
    (acc : list (string * nat)) :
  lookup_count c (count_category category acc) =
    if String.eqb category c
    then Some (default 0 (lookup_count c acc) + 1)
    else lookup_count c acc.
Proof.
  induction acc as [|[k v] rest IH]; simpl.
  - by destruct (String.eqb_spec category c).
  - destruct (String.eqb_spec k category) as [->|Hk]; simpl.
    + by destruct (String.eqb_spec category c).
    + destruct (String.eqb_spec k c) as [->|Hkc].
      * destruct (String.eqb_spec category c) as [->|_]; done.
      * done.
Qed.

Lemma keys_count_category (category : string) (acc : list (string * nat)) :
  NoDup acc.*1 → NoDup (count_category category acc).*1.
Proof.
  assert (∀ acc k, k ∈ (count_category category acc).*1 →
                   k = category ∨ k ∈ acc.*1) as Hkeys.
  { clear acc. induction acc as [|[k v] rest IH]; intros k'; simpl.
    - intros ->%list_elem_of_singleton. by left.
    - destruct (String.eqb_spec k category) as [->|Hk]; simpl.
      + by right.
      + intros [->|Hin]%elem_of_cons; [right; by left|].
        destruct (IH _ Hin) as [->|?]; [by left|right; by right]. }
  induction acc as [|[k v] rest IH]; simpl; intros Hnd.
  - apply NoDup_singleton.
  - apply NoDup_cons in Hnd as [Hk Hnd].
    destruct (String.eqb_spec k category) as [->|Hne]; simpl.
    + by apply NoDup_cons.
    + apply NoDup_cons. split; [|by apply IH].
      intros Hin. by destruct (Hkeys _ _ Hin) as [->|?].
Qed.

Lemma sum_count_category (category : string) (acc : list (string * nat)) :
  sum_list (count_category category acc).*2 = sum_list acc.*2 + 1.
Proof.
  induction acc as [|[k v] rest IH]; csimpl; [done|].
  destruct (String.eqb k category); csimpl; rewrite ?IH; lia.
Qed.

Lemma positive_count_category (category : string) (acc : list (string * nat)) :
  Forall (λ kv, 0 < kv.2) acc → Forall (λ kv, 0 < kv.2) (count_category category acc).
Proof.
  induction 1 as [|[k v] rest Hv Hrest IH]; simpl.
  - repeat constructor.
  - destruct (String.eqb k category); constructor; simpl in *;
      first [lia | done | by constructor].
Qed.

Lemma categoryCounts_snoc (docs : list Doc.t) (doc : Doc.t) :
  categoryCounts (docs ++ [doc]) =
    count_category (Doc.category doc) (categoryCounts docs).
Proof. unfold categoryCounts. by rewrite foldl_app. Qed.

Lemma documents_in_snoc (c : string) (docs : list Doc.t) (doc : Doc.t) :
  documents_in c (docs ++ [doc]) =
    documents_in c docs + (if String.eqb (Doc.category doc) c then 1 else 0).
Proof.
  unfold documents_in. rewrite List.filter_app, length_app. simpl.
  by destruct (String.eqb (Doc.category doc) c).
Qed.

Lemma lookup_count_elem_of (c : string) (n : nat) (acc : list (string * nat)) :
  NoDup acc.*1 → (c, n) ∈ acc ↔ lookup_count c acc = Some n.
Proof.
  induction acc as [|[k v] rest IH]; simpl; intros Hnd.
  - split; [by intros ?%elem_of_nil|done].
  - apply NoDup_cons in Hnd as [Hk Hnd].
    destruct (String.eqb_spec k c) as [->|Hne].
    + split.
      * intros [[= ->]|Hin]%elem_of_cons; [done|].
        exfalso. apply Hk. apply list_elem_of_fmap. by exists (c, n).
      * intros [= ->]. by left.
    + rewrite <- IH by done. split.
      * intros [[= -> ->]|Hin]%elem_of_cons; done.
      * intros Hin. by right.
Qed.

(** X14: the category summary of the ingestion script counts every
    document exactly once.  For any list of documents whose categories are
    not property names of [Object.prototype], each category occurs once in
    the summary, with the number of documents of that category (at least
    one), and the counts add up to the number of documents.  For the sample
    documents the summary is technology 7, science 2, business 2,
    health 1. *)
Theorem categoryCounts_counts_each_document_once (docs : list Doc.t) :
  plain_categories docs →
  NoDup (categoryCounts docs).*1 ∧
  sum_list (categoryCounts docs).*2 = length docs ∧
  ∀ c n, (c, n) ∈ categoryCounts docs ↔ n = documents_in c docs ∧ 0 < n.
Proof.
  intros _.
  assert (NoDup (categoryCounts docs).*1 ∧
          sum_list (categoryCounts docs).*2 = length docs ∧
          Forall (λ kv, 0 < kv.2) (categoryCounts docs) ∧
          ∀ c, default 0 (lookup_count c (categoryCounts docs))
               = documents_in c docs) as (Hnd & Hsum & Hpos & Hcount).
  { induction docs as [|doc docs IH] using rev_ind.
    - repeat split; [constructor|constructor].
    - destruct IH as (Hnd & Hsum & Hpos & Hcount).
      rewrite categoryCounts_snoc. repeat split.
      + by apply keys_count_category.
      + rewrite sum_count_category, Hsum, length_app. simpl. lia.
      + by apply positive_count_category.
      + intros c. rewrite lookup_count_count_category, documents_in_snoc.
        rewrite <- Hcount.
        destruct (String.eqb (Doc.category doc) c); simpl; lia. }
  split; [done|]. split; [done|]. intros c n.
  rewrite lookup_count_elem_of by done. split.
  - intros Hc. rewrite <- Hcount, Hc. simpl. split; [done|].
    apply lookup_count_elem_of in Hc; [|done].
    rewrite Forall_forall in Hpos. by apply (Hpos (c, n)).
  - intros [-> Hn]. specialize (Hcount c).
    destruct (lookup_count c (categoryCounts docs)) as [m|]; simpl in *.
    + by rewrite Hcount.
    + lia.
Qed.

Lemma categoryCounts_counts_each_document_once_witness :
  plain_categories sampleDocuments ∧
  categoryCounts sampleDocuments =
    [("technology", 7); ("science", 2); ("business", 2); ("health", 1)] ∧
  NoDup (categoryCounts sampleDocuments).*1 ∧
  sum_list (categoryCounts sampleDocuments).*2 = length sampleDocuments ∧
  ∀ c n, (c, n) ∈ categoryCounts sampleDocuments
         ↔ n = documents_in c sampleDocuments ∧ 0 < n.
Proof.
  assert (plain_categories sampleDocuments) as Hplain.
  { apply (bool_decide_unpack _). vm_compute. exact I. }
  split; [exact Hplain|]. split; [reflexivity|].
  exact (categoryCounts_counts_each_document_once sampleDocuments Hplain).
Defined.

(** ** Writing and reading back *)

Lemma document_metadata_lookup (title content category : string)
    (tags : list string) (timestamp : string) :
  let payload := document_metadata title content category tags timestamp in
  payload !! "title" = Some (JStr title) ∧
  payload !! "content" = Some (JStr content) ∧
  payload !! "category" = Some (JStr category) ∧
  payload !! "tags" = Some (JArr (JStr <$> tags)) ∧
  payload !! "timestamp" = Some (JStr timestamp).
Proof. repeat split; vm_compute; reflexivity. Qed.

(** X15: a hit that carries the metadata written by [addDocument] or by
    the ingestion script is displayed with what was written: the search
    shows the stored title and category (['Untitled'] and ['No category']
    when they were stored empty), the snippet search passes the stored
    title and category on as they are, and the raw metadata still holds the
    tags and the timestamp. *)
Theorem stored_metadata_is_displayed (toFixed : number → nat → string)
    (i : nat) (hit : QueryResult.t) (title content category : string)
    (tags : list string) (timestamp : string) :
  QueryResult.metadata hit
    = Some (document_metadata title content category tags timestamp) →
  let d := formatResult toFixed i hit in
  let s := formatSnippet toFixed i hit in
  Formatted.title d = JStr (if str_truthy title then title else "Untitled") ∧
  Formatted.category d
    = JStr (if str_truthy category then category else "No category") ∧
  Snippet.title s = Some (JStr title) ∧
  Snippet.category s = Some (JStr category) ∧
  Formatted.metadata d ≫= (.!! "tags") = Some (JArr (JStr <$> tags)) ∧
  Formatted.metadata d ≫= (.!! "timestamp") = Some (JStr timestamp).
Proof.
  intros Hmeta d s. subst d s. unfold formatResult, formatSnippet.
  cbn [Formatted.title Formatted.category Formatted.metadata
       Snippet.title Snippet.category].
  unfold metadata_field. rewrite Hmeta. cbn [mbind option_bind].
  destruct (document_metadata_lookup title content category tags timestamp)
    as (-> & _ & -> & -> & ->).
  simpl. by destruct (str_truthy title), (str_truthy category).
Qed.

Lemma stored_metadata_is_displayed_witness :
  let d := formatResult sample_toFixed 0 full_hit in
  let s := formatSnippet sample_toFixed 0 full_hit in
  Formatted.title d
    = JStr (if str_truthy "Vector Databases" then "Vector Databases"
            else "Untitled") ∧
  Formatted.category d
    = JStr (if str_truthy "technology" then "technology" else "No category") ∧
  Snippet.title s = Some (JStr "Vector Databases") ∧
  Snippet.category s = Some (JStr "technology") ∧
  Formatted.metadata d ≫= (.!! "tags") = Some (JArr (JStr <$> ["databases"])) ∧
  Formatted.metadata d ≫= (.!! "timestamp") = Some (JStr sample_timestamp).
Proof.
  apply (stored_metadata_is_displayed sample_toFixed 0 full_hit
           "Vector Databases" "RAG" "technology" ["databases"] sample_timestamp).
  reflexivity.
Defined.

(** ** An ingestion that goes through *)

Lemma steps_app (t1 t2 : list Event) : steps (t1 ++ t2) = steps t1 ++ steps t2.
Proof. unfold steps. apply omap_app. Qed.

Lemma cooperative_resolves {W} (S : Services W) (w : W) (c : Svc) :
  cooperative S → is_create c = false →
  ∃ v w1, serve S w c = (inr v, w1).
Proof.
  intros HS Hc. specialize (HS w c).
  destruct (serve S w c) as [[e|v] w1]; simpl in HS.
  - destruct HS as [Hcreate _]. congruence.
  - by exists v, w1.
Qed.

Lemma embed_documents_steps {W} (S : Services W) (docs : list Doc.t)
    (n i : nat) (acc : list (list number)) (w : W) :
  cooperative S →
  ∃ embeddings,
    Run.outcome (run S (embed_documents n i docs acc) w) = Returned embeddings ∧
    length embeddings = length acc + length docs ∧
    steps (Run.trace (run S (embed_documents n i docs acc) w)) =
      docs ≫= λ doc, [Requested (embed_request doc); Paused 200].
Proof.
  intros HS. revert i acc w.
  induction docs as [|doc rest IH]; intros i acc w.
  - exists acc. simpl. split; [done|]. split; [lia|done].
  - simpl. fold (embed_request doc).
    destruct (cooperative_resolves S w (embed_request doc) HS eq_refl)
      as (embedding & w1 & ->).
    simpl.
    destruct (IH (i + 1) (acc ++ [embedding]) w1) as (embeddings & Hout & Hlen & Hsteps).
    replace (i + 1) with (Datatypes.S i) in * by lia.
    exists embeddings. split; [done|]. split.
    + rewrite Hlen, length_app. simpl. lia.
    + change (Requested (embed_request doc) :: Paused 200
                :: steps (Run.trace (run S (embed_documents n (Datatypes.S i) rest
                                              (acc ++ [embedding])) w1))
              = Requested (embed_request doc) :: Paused 200
                  :: (rest ≫= λ doc, [Requested (embed_request doc); Paused 200])).
      by rewrite Hsteps.
Qed.

Lemma stamp_documents_steps {W} (S : Services W) (docs : list Doc.t) (w : W) :
  ∃ metadata,
    Run.outcome (run S (stamp_documents docs) w) = Returned metadata ∧
    metadata_of docs metadata ∧
    steps (Run.trace (run S (stamp_documents docs) w))
      = replicate (length docs) ReadClock.
Proof.
  revert w. induction docs as [|doc rest IH]; intros w.
  - exists []. simpl. by repeat constructor.
  - simpl. destruct (clock S w) as [timestamp w1]. simpl.
    change (bind (stamp_documents rest) ?f) with (stamp_documents rest ≫= f).
    rewrite run_bind.
    destruct (IH w1) as (metadata & Hout & Hmeta & Hsteps).
    rewrite Hout. unfold after. simpl.
    eexists. split; [done|]. split.
    + constructor; [by exists timestamp|done].
    + rewrite app_nil_r.
      change (ReadClock :: steps (Run.trace (run S (stamp_documents rest) w1))
              = ReadClock :: replicate (length rest) ReadClock).
      by rewrite Hsteps.
Qed.

Lemma log_categories_steps {W} (S : Services W)
    (entries : list (string * nat)) (w : W) :
  Run.outcome (run S (log_categories entries) w) = Returned () ∧
  steps (Run.trace (run S (log_categories entries) w)) = [].
Proof.
  induction entries as [|[category count] rest IH]; simpl; [done|].
  destruct IH as [Hout Hsteps]. split; [done|].
  change (steps (Run.trace (run S (log_categories rest) w)) = []). done.
Qed.

Lemma insert_and_report_steps {W} (S : Services W) (indexName : string)
    (embeddings : list (list number)) (w : W) :
  cooperative S →
  ∃ metadata,
    metadata_of sampleDocuments metadata ∧
    Run.outcome (run S (insert_and_report indexName embeddings) w) = Returned () ∧
    steps (Run.trace (run S (insert_and_report indexName embeddings) w)) =
      replicate (length sampleDocuments) ReadClock ++
      [Requested (VUpsert indexName embeddings metadata); Paused 3000;
       Requested (VDescribeIndex indexName)].
Proof.
  intros HS. unfold insert_and_report.
  rewrite !run_log_bind, run_bind.
  destruct (stamp_documents_steps S sampleDocuments w)
    as (metadata & Hstamp & Hmeta & Hclock).
  destruct (run S (stamp_documents sampleDocuments) w) as [oS wS tS].
  cbn [Run.outcome Run.final Run.trace] in *. subst oS.
  destruct (cooperative_resolves S wS
              (VUpsert indexName embeddings metadata) HS eq_refl)
    as (ids & w1 & Hupsert).
  rewrite (run_await_bind S _ _ wS w1 ids Hupsert).
  rewrite !run_log_bind, run_sleep_bind.
  destruct (cooperative_resolves S w1 (VDescribeIndex indexName) HS eq_refl)
    as (stats & w2 & Hdescribe).
  rewrite (run_await_bind S _ _ w1 w2 stats Hdescribe).
  rewrite !run_log_bind, run_bind.
  destruct (log_categories_steps S (categoryCounts sampleDocuments) w2)
    as [Hcat Hnone].
  destruct (run S (log_categories (categoryCounts sampleDocuments)) w2)
    as [oC wC tC].
  cbn [Run.outcome Run.final Run.trace] in *. subst oC.
  rewrite run_log_bind.
  change (run S (log LogNextStep) wC)
    with (Run.mk (Returned ()) wC [EvLog LogNextStep]).
  exists metadata. split; [done|]. split; [done|].
  unfold emit, after. cbn [Run.outcome Run.final Run.trace].
  change (steps (EvLog LogEmbeddingsGenerated :: EvLog LogInserting
                   :: tS ++ ?t)) with (steps (tS ++ t)).
  rewrite steps_app, Hclock. f_equal.
  change (steps (EvCall (VUpsert indexName embeddings metadata) (inr ids)
                   :: EvLog LogInserted :: EvLog LogWaiting :: EvSleep 3000
                   :: EvCall (VDescribeIndex indexName) (inr stats)
                   :: EvLog (LogStats indexName stats) :: EvLog LogCategoriesHeader
                   :: tC ++ [EvLog LogDone; EvLog LogNextStep]))
    with (Requested (VUpsert indexName embeddings metadata) :: Paused 3000
            :: Requested (VDescribeIndex indexName)
            :: steps (tC ++ [EvLog LogDone; EvLog LogNextStep])).
  rewrite steps_app, Hnone. done.
Qed.

Lemma ingest_documents_steps {W} (S : Services W) (w : W) :
  cooperative S →
  ∃ embeddings metadata,
    length embeddings = length sampleDocuments ∧
    metadata_of sampleDocuments metadata ∧
    Run.outcome
      (run S (try_catch (ingest_documents "knowledge-base") on_fatal) w)
      = Returned () ∧
    steps (Run.trace
             (run S (try_catch (ingest_documents "knowledge-base") on_fatal) w)) =
      (sampleDocuments ≫= λ doc, [Requested (embed_request doc); Paused 200]) ++
      replicate (length sampleDocuments) ReadClock ++
      [Requested (VUpsert "knowledge-base" embeddings metadata); Paused 3000;
       Requested (VDescribeIndex "knowledge-base")].
Proof.
  intros HS.
  rewrite run_try_catch, ingest_documents_unfold, run_log_bind, run_bind.
  destruct (embed_documents_steps S sampleDocuments (length sampleDocuments)
              0 [] w HS) as (embeddings & Hloop & Hlen & Hsteps).
  destruct (run S (embed_documents (length sampleDocuments) 0 sampleDocuments [])
              w) as [oL wL tL].
  cbn [Run.outcome Run.final Run.trace] in *. subst oL.
  destruct (insert_and_report_steps S "knowledge-base" embeddings wL HS)
    as (metadata & Hmeta & Hout & Hrest).
  destruct (run S (insert_and_report "knowledge-base" embeddings) wL)
    as [oR wR tR].
  cbn [Run.outcome Run.final Run.trace] in *. subst oR.
  exists embeddings, metadata. split; [done|]. split; [done|].
  unfold emit, after. cbn [Run.outcome Run.final Run.trace].
  split; [done|].
  change (steps (EvLog (LogGenerating (length sampleDocuments)) :: tL ++ tR))
    with (steps (tL ++ tR)).
  by rewrite steps_app, Hsteps, Hrest.
Qed.

(** X16: when every request resolves (the index may already exist), a
    configured ingestion run completes normally and does, in this order:
    one [createIndex]; for each sample document one embedding request
    followed by a 200 ms pause; one clock reading per document; one upsert
    of twelve vectors with their twelve metadata objects; a 3000 ms pause;
    one [describeIndex]. *)
Theorem ingestion_goes_through {W} (S : Services W) (env : Env) (w : W) :
  str_not (env !! "AZURE_AI_SEARCH_ENDPOINT") = false →
  str_not (env !! "AZURE_AI_SEARCH_CREDENTIAL") = false →
  str_not (env !! "OPENAI_API_KEY") = false →
  cooperative S →
  ∃ embeddings metadata,
    length embeddings = 12 ∧
    metadata_of sampleDocuments metadata ∧
    Run.outcome (run S (populateKnowledgeBase env) w) = Returned () ∧
    steps (Run.trace (run S (populateKnowledgeBase env) w)) =
      Requested (VCreateIndex "knowledge-base" 1536 "cosine") ::
      (sampleDocuments ≫= λ doc, [Requested (embed_request doc); Paused 200]) ++
      replicate 12 ReadClock ++
      [Requested (VUpsert "knowledge-base" embeddings metadata); Paused 3000;
       Requested (VDescribeIndex "knowledge-base")].
Proof.
  intros Hendpoint Hcredential Hkey HS.
  unfold populateKnowledgeBase. rewrite Hendpoint, Hcredential, Hkey. simpl.
  pose proof (HS w (VCreateIndex "knowledge-base" 1536 "cosine")) as Hcreate.
  destruct (serve S w (VCreateIndex "knowledge-base" 1536 "cosine"))
    as [[e|[]] w1]; simpl in Hcreate |- *.
  - destruct Hcreate as [_ Hexists].
    apply already_exists_spec in Hexists. rewrite Hexists. simpl.
    destruct (ingest_documents_steps S w1 HS)
      as (embeddings & metadata & Hlen & Hmeta & Hout & Hsteps).
    exists embeddings, metadata. split; [done|]. split; [done|].
    split; [done|].
    change (Requested (VCreateIndex "knowledge-base" 1536 "cosine")
              :: steps (Run.trace
                          (run S (try_catch (ingest_documents "knowledge-base")
                                    on_fatal) w1))
            = Requested (VCreateIndex "knowledge-base" 1536 "cosine")
                :: (sampleDocuments ≫= λ doc,
                      [Requested (embed_request doc); Paused 200]) ++
                   replicate (length sampleDocuments) ReadClock ++
                   [Requested (VUpsert "knowledge-base" embeddings metadata);
                    Paused 3000; Requested (VDescribeIndex "knowledge-base")]).
    by rewrite Hsteps.
  - destruct (ingest_documents_steps S w1 HS)
      as (embeddings & metadata & Hlen & Hmeta & Hout & Hsteps).
    exists embeddings, metadata. split; [done|]. split; [done|].
    split; [done|].
    change (Requested (VCreateIndex "knowledge-base" 1536 "cosine")
              :: steps (Run.trace
                          (run S (try_catch (ingest_documents "knowledge-base")
                                    on_fatal) w1))
            = Requested (VCreateIndex "knowledge-base" 1536 "cosine")
                :: (sampleDocuments ≫= λ doc,
                      [Requested (embed_request doc); Paused 200]) ++
                   replicate (length sampleDocuments) ReadClock ++
                   [Requested (VUpsert "knowledge-base" embeddings metadata);
                    Paused 3000; Requested (VDescribeIndex "knowledge-base")]).
    by rewrite Hsteps.
Qed.

Lemma ingestion_goes_through_witness :
  cooperative (sample_services (inl index_present)) ∧
  ∃ embeddings metadata,
    length embeddings = 12 ∧
    metadata_of sampleDocuments metadata ∧
    Run.outcome (run (sample_services (inl index_present))
                   (populateKnowledgeBase sample_env) 0) = Returned () ∧
    steps (Run.trace (run (sample_services (inl index_present))
                        (populateKnowledgeBase sample_env) 0)) =
      Requested (VCreateIndex "knowledge-base" 1536 "cosine") ::
      (sampleDocuments ≫= λ doc, [Requested (embed_request doc); Paused 200]) ++
      replicate 12 ReadClock ++
      [Requested (VUpsert "knowledge-base" embeddings metadata); Paused 3000;
       Requested (VDescribeIndex "knowledge-base")].
Proof.
  assert (cooperative (sample_services (inl index_present))) as HS.
  { intros w c. destruct c; simpl; try exact I.
    split; [reflexivity|].
    exists (mkError (Some "Index 'knowledge-base' already exists")),
      "Index 'knowledge-base' ", "". split; reflexivity. }
  split; [exact HS|].
  apply (ingestion_goes_through (sample_services (inl index_present))
           sample_env 0); [reflexivity..|exact HS].
Defined.

(** ** Reading does not write *)

(** X17: the two search tools and the two index tools only read.  Whatever
    the services answer, none of them ever issues an upsert or a
    [createIndex]; the search tools issue at most two requests and the
    index tools exactly one. *)
Theorem reading_tools_never_write {W} (S : Services W)
    (toFixed : number → nat → string) (env : Env) (context : SearchContext.t)
    (indexName : string) (w : W) :
  let docs := calls (Run.trace (run S (searchDocumentsTool toFixed env context) w)) in
  let snippets :=
    calls (Run.trace (run S (searchWithFiltersTool toFixed env context) w)) in
  let listed := calls (Run.trace (run S listIndexesTool w)) in
  let stats := calls (Run.trace (run S (getIndexStatsTool indexName) w)) in
  existsb writes docs = false ∧ length docs ≤ 2 ∧
  existsb writes snippets = false ∧ length snippets ≤ 2 ∧
  listed = [VListIndexes] ∧
  stats = [VDescribeIndex indexName].
Proof.
  intros docs snippets listed stats. subst docs snippets listed stats.
  unfold searchDocumentsTool, searchWithFiltersTool, listIndexesTool,
    getIndexStatsTool.
  destruct (str_not (env !! "OPENAI_API_KEY")); simpl;
    repeat match goal with
      | |- context [serve S ?w0 ?c] =>
          destruct (serve S w0 c) as [[[| |[[[|?]|]]]|?] ?]; simpl
      end;
    repeat split; lia.
Qed.
